(** * A shallow embedding of the order placer

    The repository is a command-line order placer for an exchange REST API:
    [config.py] (credentials), [binance_client.py] (signing and dispatch of
    requests, order placement) and [cli_handler.py] (input validation and
    response formatting).

    Python values are modelled as follows.
    - [str] is [string]; a string is read as its UTF-8 bytes, and the
      character-level operations ([upper], [len], [strip], the digits of a
      [Decimal] literal) are the ASCII ones.
    - A [dict] is an association list in insertion order: the order decides
      what [urlencode] produces.
    - [int] is [Z].
    - [float], and the library functions that are not code of this
      repository and whose result is an opaque value here (the HMAC digest,
      the conversions to and from [float]), are the fields of the class
      [PyLib]: every statement holds for every instance.
    - Exceptions are a class and a message; calls that touch the clock or
      the network run in the monad [M] over a [world] that records each
      HTTP call issued.
    Logging and console output are left out. *)

From Stdlib Require Import ZArith NArith List String Ascii Bool Lia.
From Stdlib Require Import Decimal DecimalString.
Import ListNotations.

Local Open Scope string_scope.
Local Open Scope Z_scope.

(** ** Strings *)

Module Str.

Definition nl : string := String (ascii_of_nat 10) "".

Definition is_lower (c : ascii) : bool := Ascii.leb "a" c && Ascii.leb c "z".
Definition is_upper (c : ascii) : bool := Ascii.leb "A" c && Ascii.leb c "Z".
Definition is_digit (c : ascii) : bool := Ascii.leb "0" c && Ascii.leb c "9".

Definition upper_char (c : ascii) : ascii :=
  if is_lower c then ascii_of_nat (nat_of_ascii c - 32) else c.

Definition lower_char (c : ascii) : ascii :=
  if is_upper c then ascii_of_nat (nat_of_ascii c + 32) else c.

(** [s.upper()] *)
Fixpoint upper (s : string) : string :=
  match s with
  | EmptyString => EmptyString
  | String c r => String (upper_char c) (upper r)
  end.

(** [s.lower()] *)
Fixpoint lower (s : string) : string :=
  match s with
  | EmptyString => EmptyString
  | String c r => String (lower_char c) (lower r)
  end.

(** [s * n] *)
Fixpoint repeat (s : string) (n : nat) : string :=
  match n with
  | O => EmptyString
  | S k => s ++ repeat s k
  end.

(** [s in l] for a list of strings *)
Definition mem (s : string) (l : list string) : bool :=
  existsb (String.eqb s) l.

(** [sub in s] *)
Definition contains (s sub : string) : bool :=
  match index 0 sub s with
  | Some _ => true
  | None => false
  end.

(** [str(n)] for an [int] *)
Definition of_Z (n : Z) : string := NilZero.string_of_int (Z.to_int n).

(** the whitespace of [str.strip()] in the ASCII range *)
Definition is_space (c : ascii) : bool :=
  let n := nat_of_ascii c in
  (Nat.eqb n 32 || (Nat.leb 9 n && Nat.leb n 13)
   || (Nat.leb 28 n && Nat.leb n 31))%bool.

Fixpoint lstrip (s : string) : string :=
  match s with
  | EmptyString => EmptyString
  | String c r => if is_space c then lstrip r else s
  end.

(** drops trailing whitespace: a character is kept when it is not a space
    or something is kept after it *)
Fixpoint rstrip (s : string) : string :=
  match s with
  | EmptyString => EmptyString
  | String c r =>
      match rstrip r with
      | EmptyString => if is_space c then EmptyString else String c EmptyString
      | r' => String c r'
      end
  end.

(** [s.strip()] *)
Definition strip (s : string) : string := rstrip (lstrip s).

(** [s.replace(c, "")] for a one-character [c] *)
Fixpoint remove_char (x : ascii) (s : string) : string :=
  match s with
  | EmptyString => EmptyString
  | String c r => if Ascii.eqb c x then remove_char x r else String c (remove_char x r)
  end.

End Str.

(** ** [decimal.Decimal] *)

Module Dec.

(** A [Decimal] is [(-1)^neg * coeff * 10^exp], an infinity or a NaN. *)
Inductive decimal : Type :=
| Finite (neg : bool) (coeff : N) (exp : Z)
| Infinity (neg : bool)
| NaN.

Definition digit_val (c : ascii) : N := N_of_ascii c - 48.

(** reads the longest run of digits at the head of [s]: the number read
    so far, how many digits were read, the rest *)
Fixpoint digits (s : string) (acc : N) (n : nat) : N * nat * string :=
  match s with
  | String c r =>
      if Str.is_digit c then digits r (10 * acc + digit_val c)%N (S n)
      else (acc, n, s)
  | EmptyString => (acc, n, s)
  end.

(** an optional sign: whether it is a minus, and the rest *)
Definition sign (s : string) : bool * string :=
  match s with
  | String "-" r => (true, r)
  | String "+" r => (false, r)
  | _ => (false, s)
  end.

(** the exponent part, when the rest of the literal is empty or is an [e],
    an optional sign and at least one digit, and nothing more *)
Definition exponent (s : string) : option Z :=
  match s with
  | EmptyString => Some 0
  | String "e" r =>
      let '(neg, r1) := sign r in
      match digits r1 0%N 0 with
      | (_, O, _) => None
      | (e, S _, EmptyString) => Some (if neg then - Z.of_N e else Z.of_N e)
      | _ => None
      end
  | _ => None
  end.

(** digits, optionally a point and digits, optionally an exponent part,
    with at least one digit before the exponent *)
Definition number (neg : bool) (s : string) : option decimal :=
  let '(i, ni, r) := digits s 0%N 0 in
  match r with
  | String "." r1 =>
      let '(c, nf, r2) := digits r1 i 0 in
      match (ni + nf)%nat with
      | O => None
      | S _ =>
          match exponent r2 with
          | Some e => Some (Finite neg c (e - Z.of_nat nf))
          | None => None
          end
      end
  | _ =>
      match ni with
      | O => None
      | S _ =>
          match exponent r with
          | Some e => Some (Finite neg i e)
          | None => None
          end
      end
  end.

(** what may follow [NaN]: digits only *)
Definition nan_tail (s : string) : bool :=
  match digits s 0%N 0 with
  | (_, _, EmptyString) => true
  | _ => false
  end.

(** [Decimal(s)] for a string: [None] is [InvalidOperation]. Surrounding
    whitespace and underscores are removed, letters match in either case;
    the conversion is exact (exponents are taken within the range the
    implementation accepts). *)
Definition parse (s : string) : option decimal :=
  let s1 := Str.lower (Str.remove_char "_" (Str.strip s)) in
  let '(neg, body) := sign s1 in
  if String.eqb body "inf" || String.eqb body "infinity" then Some (Infinity neg)
  else if prefix "nan" body then
    if nan_tail (substring 3 (String.length body - 3) body) then Some NaN else None
  else if prefix "snan" body then
    if nan_tail (substring 4 (String.length body - 4) body) then Some NaN else None
  else number neg body.

(** [d <= 0]: [None] is the [InvalidOperation] raised on a NaN *)
Definition le_zero (d : decimal) : option bool :=
  match d with
  | Finite neg c _ => Some (neg || N.eqb c 0)
  | Infinity neg => Some neg
  | NaN => None
  end.

(** [bool(d)] *)
Definition truthy (d : decimal) : bool :=
  match d with
  | Finite _ c _ => negb (N.eqb c 0)
  | _ => true
  end.

End Dec.

(** ** The library functions left abstract *)

Class PyLib : Type := {
  float : Type;
  (** [x <= 0] *)
  float_le_zero : float -> bool;
  (** [x > 0] *)
  float_gt_zero : float -> bool;
  (** [x == n] for an int [n] *)
  float_eq_int : float -> Z -> bool;
  (** [round(x, n)] *)
  float_round : float -> Z -> float;
  (** [str(x)] *)
  float_str : float -> string;
  (** [float(d)] for a [Decimal] *)
  float_of_decimal : Dec.decimal -> float;
  (** [float(s)] for a string: left is the message of the [ValueError] *)
  float_of_string : string -> string + float;
  (** [float(n)] for an int: left is the message of the [OverflowError] *)
  float_of_int : Z -> string + float;
  (** [hmac.new(key, msg, hashlib.sha256).hexdigest()] *)
  hmac_sha256_hex : string -> string -> string
}.

(** ** Values, dictionaries, exceptions *)

Section Values.

Context {L : PyLib}.

(** the values that occur in request parameters and in decoded responses *)
Inductive pyval : Type :=
| VStr (s : string)
| VInt (n : Z)
| VFloat (x : float).

(** [str(v)] *)
Definition py_str (v : pyval) : string :=
  match v with
  | VStr s => s
  | VInt n => Str.of_Z n
  | VFloat x => float_str x
  end.

(** a [dict] with string keys, in insertion order *)
Definition pydict : Type := list (string * pyval).

(** [d[k] = v]: an existing key keeps its position *)
Fixpoint dict_set (d : pydict) (k : string) (v : pyval) : pydict :=
  match d with
  | [] => [(k, v)]
  | (k', v') :: r =>
      if String.eqb k' k then (k', v) :: r else (k', v') :: dict_set r k v
  end.

(** [d.get(k)] *)
Fixpoint dict_get (d : pydict) (k : string) : option pyval :=
  match d with
  | [] => None
  | (k', v') :: r => if String.eqb k' k then Some v' else dict_get r k
  end.

(** [k in d] *)
Definition dict_mem (d : pydict) (k : string) : bool :=
  match dict_get d k with
  | Some _ => true
  | None => false
  end.

(** [d.get(k, default)] inside an f-string *)
Definition get_str (d : pydict) (k : string) (default : string) : string :=
  match dict_get d k with
  | Some v => py_str v
  | None => default
  end.

End Values.

(** [l.append(x)] *)
Definition list_append {A : Type} (l : list A) (x : A) : list A := (l ++ [x])%list.

(** the exception classes the program raises or catches *)
Inductive pyclass : Type :=
| Exception
| ValueError
| TypeError
| OverflowError
| RequestException
| UnboundLocalError
| SystemExit.

Record exn : Type := Exn { exn_class : pyclass; exn_msg : string }.

Definition pyclass_eqb (a b : pyclass) : bool :=
  match a, b with
  | Exception, Exception | ValueError, ValueError | TypeError, TypeError
  | OverflowError, OverflowError | RequestException, RequestException
  | UnboundLocalError, UnboundLocalError | SystemExit, SystemExit => true
  | _, _ => false
  end.

(** [except c]: whether an exception of class [e] is caught by a clause
    for class [c]. [SystemExit] is not an [Exception]; the other classes
    are. *)
Definition isinstance (e c : pyclass) : bool :=
  match c with
  | Exception => negb (pyclass_eqb e SystemExit)
  | _ => pyclass_eqb e c
  end.

(** ** The world: clock, network, and the calls issued *)

Section World.

Context {L : PyLib}.

(** one call of [session.get] or [session.post] *)
Record http_request : Type := {
  rq_method : string;
  rq_url : string;
  rq_headers : list (string * string);
  rq_data : pydict;
  rq_timeout : Z
}.

(** a [requests.Response]: [history] holds the status codes of the
    redirects followed, [json] what [response.json()] returns or raises *)
Record http_response : Type := {
  status_code : Z;
  reason : string;
  (** [response.url], the address the response finally came from *)
  response_url : string;
  history : list Z;
  text : string;
  json : exn + pydict
}.

Record world : Type := {
  (** [int(time.time() * 1000)] *)
  now_ms : Z;
  (** what the session does with a call: a response, or the exception of
      a transport failure *)
  network : http_request -> exn + http_response;
  (** the calls issued so far, oldest first *)
  sent : list http_request
}.

(** computations that may raise and that read the clock and use the
    network *)
Definition M (A : Type) : Type := world -> (exn + A) * world.

Definition ret {A} (a : A) : M A := fun w => (inr a, w).

Definition raise {A} (e : exn) : M A := fun w => (inl e, w).

Definition bind {A B} (m : M A) (k : A -> M B) : M B :=
  fun w =>
    match m w with
    | (inr a, w') => k a w'
    | (inl e, w') => (inl e, w')
    end.

(** [try: m except ... : h e] *)
Definition try_except {A} (m : M A) (h : exn -> M A) : M A :=
  fun w =>
    match m w with
    | (inr a, w') => (inr a, w')
    | (inl e, w') => h e w'
    end.

(** a pure result, or the exception raised instead *)
Definition lift {A} (r : exn + A) : M A := fun w => (r, w).

Definition time_ms : M Z := fun w => (inr (now_ms w), w).

(** issues one call: it is recorded, and the network answers *)
Definition http_call (rq : http_request) : M http_response :=
  fun w =>
    (network w rq,
     {| now_ms := now_ms w; network := network w; sent := sent w ++ [rq] |}).

(** a computation that leaves the world as it is: no call, in particular *)
Definition silent {A} (m : M A) : Prop := forall w, snd (m w) = w.

End World.

Notation "x <- m ;; k" := (bind m (fun x => k))
  (at level 61, m at next level, right associativity).
Notation "m ;;; k" := (bind m (fun _ => k))
  (at level 61, right associativity).

(** ** Library calls with a definite result *)

Module Urllib.

Section Urlencode.

Context {L : PyLib}.

Definition hex_digit (n : nat) : ascii :=
  if Nat.ltb n 10 then ascii_of_nat (48 + n) else ascii_of_nat (55 + n).

(** the characters [quote] never escapes *)
Definition always_safe (c : ascii) : bool :=
  Str.is_lower c || Str.is_upper c || Str.is_digit c
  || Ascii.eqb c "_" || Ascii.eqb c "." || Ascii.eqb c "-" || Ascii.eqb c "~".

(** [quote_plus(s)]: a space becomes a plus sign, every other byte that
    is not always safe becomes a percent sign and two hexadecimal
    digits *)
Fixpoint quote_plus (s : string) : string :=
  match s with
  | EmptyString => EmptyString
  | String c r =>
      if always_safe c then String c (quote_plus r)
      else if Ascii.eqb c " " then String "+" (quote_plus r)
      else
        let n := nat_of_ascii c in
        String "%" (String (hex_digit (n / 16)) (String (hex_digit (n mod 16))
                                                        (quote_plus r)))
  end.

(** [urlencode(d)] for a dict: [key=value] pairs joined by an ampersand,
    in the order of the dict *)
Definition urlencode (d : pydict) : string :=
  String.concat "&"
    (map (fun kv => quote_plus (fst kv) ++ "=" ++ quote_plus (py_str (snd kv))) d).

End Urlencode.

End Urllib.

Module Requests.

Section Response.

Context {L : PyLib}.

(** [response.raise_for_status()]: an [HTTPError], which is a
    [RequestException], for the statuses 400 to 599 *)
Definition raise_for_status (r : http_response) : M unit :=
  let http_error_msg :=
    if (400 <=? status_code r) && (status_code r <? 500) then
      Str.of_Z (status_code r) ++ " Client Error: " ++ reason r
      ++ " for url: " ++ response_url r
    else if (500 <=? status_code r) && (status_code r <? 600) then
      Str.of_Z (status_code r) ++ " Server Error: " ++ reason r
      ++ " for url: " ++ response_url r
    else "" in
  if String.eqb http_error_msg "" then ret tt
  else raise (Exn RequestException http_error_msg).

(** [response.json()] *)
Definition response_json (r : http_response) : M pydict :=
  match json r with
  | inr d => ret d
  | inl e => raise e
  end.

End Response.

End Requests.

(** ** config.py *)

Module Config.

Definition BASE_URL : string := "https://testnet.binance.vision".

Definition environ : Type := string -> option string.

(** [load_dotenv()]: the bindings of the [.env] file are added to the
    environment; a variable already set is kept, and of two bindings of
    one name in the file the later one counts *)
Fixpoint load_dotenv (dotenv : list (string * string)) (env : environ) : environ :=
  match dotenv with
  | [] => env
  | (k, v) :: r =>
      let env' := load_dotenv r env in
      fun x =>
        match env' x with
        | Some y => Some y
        | None => if String.eqb x k then Some v else None
        end
  end.

(** [os.getenv(k, default)] *)
Definition getenv (env : environ) (k default : string) : string :=
  match env k with
  | Some v => v
  | None => default
  end.

(** the class attributes, set when the module is loaded *)
Record t : Type := { API_KEY : string; SECRET_KEY : string }.

Definition load (env : environ) : t :=
  {| API_KEY := getenv env "BINANCE_API_KEY" "your_testnet_api_key";
     SECRET_KEY := getenv env "BINANCE_SECRET_KEY" "your_testnet_secret_key" |}.

Definition validate_config (c : t) : exn + unit :=
  if String.eqb (API_KEY c) "your_testnet_api_key"
     || String.eqb (SECRET_KEY c) "your_testnet_secret_key"
  then inl (Exn ValueError "Please set your API credentials in .env file or config.py")
  else inr tt.

End Config.

(** ** binance_client.py *)

Module BinanceFuturesClient.

Section Client.

Context {L : PyLib}.

Record t : Type := {
  api_key : string;
  secret_key : string;
  base_url : string;
  (** [self.session.headers], as far as the constructor sets them *)
  session_headers : list (string * string)
}.

Definition __init__ (api_key secret_key : string) : t :=
  {| api_key := api_key;
     secret_key := secret_key;
     base_url := Config.BASE_URL;
     session_headers :=
       [("X-MBX-APIKEY", api_key); ("Content-Type", "application/json")] |}.

Definition _generate_signature (self : t) (params : pydict) : string :=
  let query_string := Urllib.urlencode params in
  hmac_sha256_hex (secret_key self) query_string.

(** [self.session.get(url, data=params, timeout=10)] *)
Definition session_get (self : t) (url : string) (data : pydict) (timeout : Z)
  : M http_response :=
  http_call {| rq_method := "GET"; rq_url := url;
               rq_headers := session_headers self;
               rq_data := data; rq_timeout := timeout |}.

(** [self.session.post(url, data=params, timeout=10)] *)
Definition session_post (self : t) (url : string) (data : pydict) (timeout : Z)
  : M http_response :=
  http_call {| rq_method := "POST"; rq_url := url;
               rq_headers := session_headers self;
               rq_data := data; rq_timeout := timeout |}.

(** the parameters as the call sends them: with [signed], the timestamp
    is set first and the signature is computed over the result *)
Definition sign_params (self : t) (params : pydict) (signed : bool) : M pydict :=
  if signed then
    ts <- time_ms ;;
    let params := dict_set params "timestamp" (VInt ts) in
    ret (dict_set params "signature" (VStr (_generate_signature self params)))
  else ret params.

(** the two [except] clauses of [_send_request] *)
Definition send_handler {A} (e : exn) : M A :=
  if isinstance (exn_class e) RequestException then
    raise (Exn Exception ("Network error: " ++ exn_msg e))
  else if isinstance (exn_class e) ValueError then
    raise (Exn Exception ("Invalid response from server: " ++ exn_msg e))
  else raise e.

Definition _send_request (self : t) (method endpoint : string)
           (params : option pydict) (signed : bool) : M pydict :=
  let url := base_url self ++ endpoint in
  let params := match params with None => [] | Some p => p end in
  params <- sign_params self params signed ;;
  try_except
    (response <-
       (if String.eqb method "GET" then
          session_get self url params 10
        else if String.eqb method "POST" then
          response <- session_post self url params 10 ;;
          match history response with
          | [] => ret response
          | _ :: _ =>
              raise (Exn Exception
                       ("Request redirected! Wrong URL or endpoint. Final URL: "
                        ++ response_url response))
          end
        else raise (Exn ValueError ("Unsupported HTTP method: " ++ method))) ;;
     Requests.raise_for_status response ;;;
     data <- Requests.response_json response ;;
     ret data)
    send_handler.

Definition place_order (self : t) (symbol side order_type : string)
           (quantity : float) (price : option float) : M pydict :=
  if negb (Str.mem side ["BUY"; "SELL"]) then
    raise (Exn ValueError "Side must be either 'BUY' or 'SELL'")
  else if negb (Str.mem order_type ["MARKET"; "LIMIT"]) then
    raise (Exn ValueError "Order type must be either 'MARKET' or 'LIMIT'")
  else if String.eqb order_type "LIMIT"
          && match price with None => true | Some _ => false end then
    raise (Exn ValueError "Price is required for LIMIT orders")
  else if float_le_zero quantity then
    raise (Exn ValueError "Quantity must be greater than 0")
  else
    let params :=
      [("symbol", VStr (Str.upper symbol));
       ("side", VStr side);
       ("type", VStr order_type);
       ("quantity", VFloat (float_round quantity 8));
       ("newOrderRespType", VStr "ACK")] in
    params <-
      (if String.eqb order_type "LIMIT" then
         let params := dict_set params "timeInForce" (VStr "GTC") in
         match price with
         | Some p => ret (dict_set params "price" (VFloat (float_round p 2)))
         | None =>
             raise (Exn TypeError "type NoneType doesn't define __round__ method")
         end
       else ret params) ;;
    try_except
      (response <- _send_request self "POST" "/api/v3/order" (Some params) true ;;
       ret response)
      (fun e => raise e).

Definition get_account_info (self : t) : M pydict :=
  _send_request self "GET" "/api/v3/account" None true.

(** the bare [except] catches every exception *)
Definition test_connection (self : t) : M bool :=
  try_except
    (response <- _send_request self "GET" "/api/v3/ping" None false ;;
     ret true)
    (fun _ => ret false).

End Client.

End BinanceFuturesClient.

(** ** cli_handler.py *)

Module OrderCLI.

Section CLI.

Context {L : PyLib}.

(** the constructor: any [Exception] ends the process with status 1 *)
Definition __init__ (cfg : Config.t) : M BinanceFuturesClient.t :=
  try_except
    (lift (Config.validate_config cfg) ;;;
     ret (BinanceFuturesClient.__init__ (Config.API_KEY cfg) (Config.SECRET_KEY cfg)))
    (fun e =>
       if isinstance (exn_class e) Exception then raise (Exn SystemExit "1")
       else raise e).

(** [not s] for an optional string *)
Definition falsy (s : option string) : bool :=
  match s with
  | None => true
  | Some x => String.eqb x ""
  end.

(** the check of the symbol *)
Definition check_symbol (symbol : string) (errors : list string) : list string :=
  if String.eqb symbol "" || Nat.ltb (String.length symbol) 6 then
    list_append errors "Symbol must be at least 6 characters (e.g., BTCUSDT)"
  else errors.

(** the check of the side *)
Definition check_side (side : string) (errors : list string) : list string :=
  if negb (Str.mem (Str.upper side) ["BUY"; "SELL"]) then
    list_append errors "Side must be either 'BUY' or 'SELL'"
  else errors.

(** the check of the order type *)
Definition check_order_type (order_type : string) (errors : list string)
  : list string :=
  if negb (Str.mem (Str.upper order_type) ["MARKET"; "LIMIT"]) then
    list_append errors "Order type must be either 'MARKET' or 'LIMIT'"
  else errors.

(** the [try] block of the quantity: the errors, and [qty] when it was
    assigned *)
Definition check_quantity (quantity : string) (errors : list string)
  : list string * option Dec.decimal :=
  match Dec.parse quantity with
  | Some qty =>
      match Dec.le_zero qty with
      | Some true => (list_append errors "Quantity must be greater than 0", Some qty)
      | Some false => (errors, Some qty)
      | None => (list_append errors "Quantity must be a valid number", Some qty)
      end
  | None => (list_append errors "Quantity must be a valid number", None)
  end.

(** the block of the price: the errors, and [price_val] *)
Definition check_price (order_type : string) (price : option string)
           (errors : list string) : list string * option Dec.decimal :=
  if String.eqb (Str.upper order_type) "LIMIT" then
    if falsy price then (list_append errors "Price is required for LIMIT orders", None)
    else
      match Dec.parse (match price with Some p => p | None => "" end) with
      | Some price_val =>
          match Dec.le_zero price_val with
          | Some true => (list_append errors "Price must be greater than 0", Some price_val)
          | Some false => (errors, Some price_val)
          | None => (list_append errors "Price must be a valid number", Some price_val)
          end
      | None => (list_append errors "Price must be a valid number", None)
      end
  else (errors, None).

(** the list [errors] when the last check is done, with [qty] and
    [price_val] *)
Definition collect_errors (symbol side order_type quantity : string)
           (price : option string)
  : list string * option Dec.decimal * option Dec.decimal :=
  let errors := [] in
  let errors := check_symbol symbol errors in
  let errors := check_side side errors in
  let errors := check_order_type order_type errors in
  let '(errors, qty) := check_quantity quantity errors in
  let '(errors, price_val) := check_price order_type price errors in
  (errors, qty, price_val).

Definition validate_inputs (symbol side order_type quantity : string)
           (price : option string)
  : exn + (string * string * string * float * option float) :=
  let '(errors, qty, price_val) :=
    collect_errors symbol side order_type quantity price in
  match errors with
  | _ :: _ => inl (Exn ValueError (String.concat Str.nl errors))
  | [] =>
      match qty with
      | Some q =>
          inr (Str.upper symbol, Str.upper side, Str.upper order_type,
               float_of_decimal q,
               match price_val with
               | Some p => if Dec.truthy p then Some (float_of_decimal p) else None
               | None => None
               end)
      | None =>
          inl (Exn UnboundLocalError
                 "cannot access local variable 'qty' where it is not associated with a value")
      end
  end.

(** [v != n] for an int [n] *)
Definition ne_int (v : pyval) (n : Z) : bool :=
  match v with
  | VInt m => negb (Z.eqb m n)
  | VFloat x => negb (float_eq_int x n)
  | VStr _ => true
  end.

(** [float(v)] *)
Definition py_float (v : pyval) : exn + float :=
  match v with
  | VFloat x => inr x
  | VInt n =>
      match float_of_int n with
      | inr x => inr x
      | inl m => inl (Exn OverflowError m)
      end
  | VStr s =>
      match float_of_string s with
      | inr x => inr x
      | inl m => inl (Exn ValueError m)
      end
  end.

Definition format_order_response (response : pydict) : exn + string :=
  if match dict_get response "code" with
     | Some c => ne_int c 200
     | None => false
     end
  then inr ("❌ Error: " ++ get_str response "msg" "Unknown error")
  else
    let output_lines :=
      [Str.repeat "=" 50;
       "✅ ORDER PLACED SUCCESSFULLY";
       Str.repeat "=" 50;
       "Order ID: " ++ get_str response "orderId" "N/A";
       "Symbol: " ++ get_str response "symbol" "N/A";
       "Side: " ++ get_str response "side" "N/A";
       "Type: " ++ get_str response "type" "N/A";
       "Status: " ++ get_str response "status" "N/A";
       "Quantity: " ++ get_str response "origQty" "N/A";
       "Executed Quantity: " ++ get_str response "executedQty" "0";
       "Price: " ++ get_str response "price" "N/A"] in
    let finish (output_lines : list string) : exn + string :=
      let output_lines :=
        list_append output_lines ("Time: " ++ get_str response "updateTime" "N/A") in
      let output_lines := list_append output_lines (Str.repeat "=" 50) in
      inr (String.concat Str.nl output_lines) in
    match dict_get response "avgPrice" with
    | Some a =>
        match py_float a with
        | inl e => inl e
        | inr x =>
            if float_gt_zero x then
              finish (list_append output_lines ("Average Price: " ++ py_str a))
            else finish output_lines
        end
    | None => finish output_lines
    end.

End CLI.

End OrderCLI.

(** ** An instance to run the embedding

    Numbers are exact decimals (no binary rounding), printed in positional
    notation; the digest is a tagged copy of key and message. *)

Module Sample.

Import Dec.

Definition le_zero (x : decimal) : bool :=
  match x with
  | Finite neg c _ => neg || N.eqb c 0
  | Infinity neg => neg
  | NaN => false
  end.

Definition gt_zero (x : decimal) : bool :=
  match x with
  | Finite neg c _ => negb neg && negb (N.eqb c 0)
  | Infinity neg => negb neg
  | NaN => false
  end.

Definition eq_int (x : decimal) (n : Z) : bool :=
  match x with
  | Finite neg c e =>
      let v := if neg then - Z.of_N c else Z.of_N c in
      if 0 <=? e then Z.eqb (v * 10 ^ e) n else Z.eqb v (n * 10 ^ (- e))
  | _ => false
  end.

(** rounding to [n] places, a tie going to the even neighbour *)
Definition round (x : decimal) (n : Z) : decimal :=
  match x with
  | Finite neg c e =>
      if - n <=? e then x
      else
        let p := (10 ^ Z.to_N (- n - e))%N in
        let q := (c / p)%N in
        let r := (c mod p)%N in
        let up := (if (p <? 2 * r)%N then true
                   else if (2 * r <? p)%N then false
                   else N.odd q) in
        Finite neg (if up then q + 1 else q)%N (- n)
  | _ => x
  end.

(** the digits of [c] with the point [k] places from the right *)
Definition fixed (c : N) (k : nat) : string :=
  let s := Str.of_Z (Z.of_N c) in
  let s := Str.repeat "0" (S k - String.length s) ++ s in
  let i := (String.length s - k)%nat in
  substring 0 i s ++ "." ++ (if Nat.eqb k 0 then "0" else substring i k s).

Definition str (x : decimal) : string :=
  match x with
  | Finite neg c e =>
      (if neg then "-" else "")
      ++ (if 0 <=? e then fixed (c * 10 ^ Z.to_N e)%N 0 else fixed c (Z.to_nat (- e)))
  | Infinity neg => if neg then "-inf" else "inf"
  | NaN => "nan"
  end.

Definition of_string (s : string) : string + decimal :=
  match parse s with
  | Some d => inr d
  | None => inl ("could not convert string to float: '" ++ s ++ "'")
  end.

Definition of_int (n : Z) : string + decimal :=
  inr (Finite (n <? 0) (Z.abs_N n) 0).

Definition digest (key msg : string) : string :=
  "hmac-sha256(" ++ key ++ ";" ++ msg ++ ")".

Definition lib : PyLib :=
  {| float := decimal;
     float_le_zero := le_zero;
     float_gt_zero := gt_zero;
     float_eq_int := eq_int;
     float_round := round;
     float_str := str;
     float_of_decimal := fun d => d;
     float_of_string := of_string;
     float_of_int := of_int;
     hmac_sha256_hex := digest |}.

(** a world whose network answers every call with [r] *)
Definition world_of (now : Z) (r : exn + @http_response lib) : @world lib :=
  {| now_ms := now; network := fun _ => r; sent := [] |}.

Definition client : BinanceFuturesClient.t :=
  BinanceFuturesClient.__init__ "key" "secret".

(** the number [c * 10^e], negated when [neg] *)
Definition num (neg : bool) (c : N) (e : Z) : @float lib := Finite neg c e.

(** [Decimal(x)] for a number of the instance *)
Definition decimal_of_float (x : @float lib) : decimal := x.

Definition order_url : string := "https://testnet.binance.vision/api/v3/order".

(** responses of a server: an accepted order, an unknown path, a status
    of the 3xx range that is no redirect to follow, a body that does not
    decode, and an accepted order reached through a redirect *)
Definition accepted : @http_response lib :=
  {| status_code := 200; reason := "OK"; response_url := order_url;
     history := []; text := "{'orderId': 123}";
     json := inr [("orderId", VInt 123)] |}.

Definition not_found : @http_response lib :=
  {| status_code := 404; reason := "Not Found"; response_url := order_url;
     history := []; text := "<h1>404 page not found</h1>";
     json := inl (Exn ValueError "Expecting value: line 1 column 1 (char 0)") |}.

Definition not_modified : @http_response lib :=
  {| status_code := 304; reason := "Not Modified"; response_url := order_url;
     history := []; text := "{'orderId': 123}";
     json := inr [("orderId", VInt 123)] |}.

Definition garbled : @http_response lib :=
  {| status_code := 200; reason := "OK"; response_url := order_url;
     history := []; text := "<html>";
     json := inl (Exn ValueError "Expecting value") |}.

Definition redirected : @http_response lib :=
  {| status_code := 200; reason := "OK";
     response_url := "https://www.binance.vision/api/v3/order";
     history := [301]; text := "{'orderId': 123}";
     json := inr [("orderId", VInt 123)] |}.

End Sample.

(** ** The vocabulary of the statements *)

Module Spec.

Section Orders.

Context {L : PyLib}.

(** the constraints [placeOrder] is said to validate, each with the
    message of its check, in the order of the checks *)
Definition violated (side order_type : string) (quantity : float)
           (price : option float) : list string :=
  ((if Str.mem side ["BUY"; "SELL"] then []
    else ["Side must be either 'BUY' or 'SELL'"])
   ++ (if Str.mem order_type ["MARKET"; "LIMIT"] then []
       else ["Order type must be either 'MARKET' or 'LIMIT'"])
   ++ (match price with
       | None => if String.eqb order_type "LIMIT"
                 then ["Price is required for LIMIT orders"] else []
       | Some _ => []
       end)
   ++ (if float_le_zero quantity then ["Quantity must be greater than 0"]
       else []))%list.

(** the world after one more call *)
Definition after_call (w : world) (rq : http_request) : world :=
  {| now_ms := now_ms w; network := network w; sent := (sent w ++ [rq])%list |}.

(** the call [_send_request] issues for a method, a path and the
    parameters as sent *)
Definition call_of (self : BinanceFuturesClient.t) (method endpoint : string)
           (data : pydict) : http_request :=
  {| rq_method := method;
     rq_url := BinanceFuturesClient.base_url self ++ endpoint;
     rq_headers := BinanceFuturesClient.session_headers self;
     rq_data := data;
     rq_timeout := 10 |}.

(** the parameters of an order that passed validation, before signing *)
Definition order_params (symbol side order_type : string) (quantity : float)
           (price : option float) : pydict :=
  ([("symbol", VStr (Str.upper symbol));
    ("side", VStr side);
    ("type", VStr order_type);
    ("quantity", VFloat (float_round quantity 8));
    ("newOrderRespType", VStr "ACK")]
   ++ (if String.eqb order_type "LIMIT" then
         ("timeInForce", VStr "GTC")
         :: match price with
            | Some p => [("price", VFloat (float_round p 2))]
            | None => []
            end
       else []))%list.

(** the parameters after signing at time [ts] *)
Definition signed_params (self : BinanceFuturesClient.t) (params : pydict) (ts : Z)
  : pydict :=
  let stamped := dict_set params "timestamp" (VInt ts) in
  dict_set stamped "signature"
           (VStr (hmac_sha256_hex (BinanceFuturesClient.secret_key self)
                                  (Urllib.urlencode stamped))).

(** the parameters [_send_request] sends at time [ts] *)
Definition params_sent (self : BinanceFuturesClient.t) (params : option pydict)
           (signed : bool) (ts : Z) : pydict :=
  let p := match params with None => [] | Some p => p end in
  if signed then signed_params self p ts else p.

(** the text of the [HTTPError] for a status from 400 to 599 *)
Definition http_error_text (r : http_response) : string :=
  Str.of_Z (status_code r)
  ++ (if status_code r <? 500 then " Client Error: " else " Server Error: ")
  ++ reason r ++ " for url: " ++ response_url r.

End Orders.

(** the constraints on the inputs of the command line *)
Inductive constraint : Type :=
| CSymbol
| CSide
| COrderType
| CQuantity
| CPrice.

Definition all_constraints : list constraint :=
  [CSymbol; CSide; COrderType; CQuantity; CPrice].

(** a string that reads as a number greater than zero *)
Definition positive_number (s : string) : bool :=
  match Dec.parse s with
  | Some d =>
      match Dec.le_zero d with
      | Some b => negb b
      | None => false
      end
  | None => false
  end.

Definition holds (c : constraint) (symbol side order_type quantity : string)
           (price : option string) : bool :=
  match c with
  | CSymbol => Nat.leb 6 (String.length symbol)
  | CSide => Str.mem (Str.upper side) ["BUY"; "SELL"]
  | COrderType => Str.mem (Str.upper order_type) ["MARKET"; "LIMIT"]
  | CQuantity => positive_number quantity
  | CPrice =>
      if String.eqb (Str.upper order_type) "LIMIT" then
        match price with
        | Some p => positive_number p
        | None => false
        end
      else true
  end.

(** the constraint a message of the validation speaks of *)
Definition about (msg : string) : option constraint :=
  if String.eqb msg "Symbol must be at least 6 characters (e.g., BTCUSDT)"
  then Some CSymbol
  else if String.eqb msg "Side must be either 'BUY' or 'SELL'" then Some CSide
  else if String.eqb msg "Order type must be either 'MARKET' or 'LIMIT'"
  then Some COrderType
  else if String.eqb msg "Quantity must be greater than 0"
          || String.eqb msg "Quantity must be a valid number" then Some CQuantity
  else if String.eqb msg "Price is required for LIMIT orders"
          || String.eqb msg "Price must be greater than 0"
          || String.eqb msg "Price must be a valid number" then Some CPrice
  else None.

(** what a constraint adds to the list of the violated ones *)
Definition report (c : constraint) (ok : bool) : list (option constraint) :=
  if ok then [] else [Some c].

(** the response mapping of the formatting example *)
Definition example_response {L : PyLib} : pydict :=
  [("orderId", VInt 123); ("symbol", VStr "BTCUSDT"); ("side", VStr "BUY");
   ("type", VStr "MARKET"); ("status", VStr "FILLED"); ("origQty", VStr "0.001");
   ("executedQty", VStr "0.001"); ("price", VStr "0");
   ("updateTime", VInt 1234567890)].

End Spec.

(** ** The flows of the command line

    [place_order_interactive] and [run_from_args] read and write the
    console: the lines still to be read and the texts written so far are a
    second state, beside the world. [input] raises [EOFError] when no line
    is left. An interrupt from the keyboard is not modelled, so the
    [except KeyboardInterrupt] clause has no counterpart. *)

Module Flows.

Section Console.

Context {L : PyLib}.

Record console : Type := {
  (** the lines not read yet, each without its end of line *)
  stdin : list string;
  (** the texts written, oldest first *)
  stdout : list string
}.

(** what a flow may raise: an exception of the client and of the
    validation, or the [EOFError] of [input] *)
Inductive raised : Type :=
| Py (e : exn)
| EOFError (msg : string).

(** [str(e)] *)
Definition raised_str (r : raised) : string :=
  match r with
  | Py e => exn_msg e
  | EOFError msg => msg
  end.

(** [except ValueError] *)
Definition is_ValueError (r : raised) : bool :=
  match r with
  | Py e => isinstance (exn_class e) ValueError
  | EOFError _ => false
  end.

(** [except Exception] *)
Definition is_Exception (r : raised) : bool :=
  match r with
  | Py e => isinstance (exn_class e) Exception
  | EOFError _ => true
  end.

Definition IO (A : Type) : Type :=
  console -> world -> (raised + A) * console * world.

Definition io_ret {A} (a : A) : IO A := fun c w => (inr a, c, w).

Definition io_raise {A} (r : raised) : IO A := fun c w => (inl r, c, w).

Definition io_bind {A B} (m : IO A) (k : A -> IO B) : IO B :=
  fun c w =>
    match m c w with
    | (inr a, c', w') => k a c' w'
    | (inl r, c', w') => (inl r, c', w')
    end.

Definition io_try {A} (m : IO A) (h : raised -> IO A) : IO A :=
  fun c w =>
    match m c w with
    | (inr a, c', w') => (inr a, c', w')
    | (inl r, c', w') => h r c' w'
    end.

(** a computation of the client, run from a flow *)
Definition run {A} (m : M A) : IO A :=
  fun c w =>
    match m w with
    | (inr a, w') => (inr a, c, w')
    | (inl e, w') => (inl (Py e), c, w')
    end.

(** [print(s)] *)
Definition print (s : string) : IO unit :=
  fun c w =>
    (inr tt, {| stdin := stdin c; stdout := list_append (stdout c) (s ++ Str.nl) |}, w).

(** [input(prompt)] *)
Definition input (prompt : string) : IO string :=
  fun c w =>
    let out := list_append (stdout c) prompt in
    match stdin c with
    | [] => (inl (EOFError "EOF when reading a line"),
             {| stdin := []; stdout := out |}, w)
    | line :: rest => (inr line, {| stdin := rest; stdout := out |}, w)
    end.

(** a flow started in a state that satisfies [P] ends in a state that
    satisfies [Q] for its result, or [E] for what it raises *)
Definition triple {A} (P : console -> world -> Prop) (m : IO A)
           (Q : A -> console -> world -> Prop)
           (E : raised -> console -> world -> Prop) : Prop :=
  forall c w,
    P c w ->
    match m c w with
    | (inr a, c', w') => Q a c' w'
    | (inl r, c', w') => E r c' w'
    end.

(** a property of the lines still to be read and of the world that
    reading a line keeps *)
Definition steady (I : list string -> world -> Prop) : Prop :=
  forall x l w, I (x :: l) w -> I l w.

(** a world whose network and whose decoding of bodies raise nothing that
    ends the process *)
Definition tame (w : world) : Prop :=
  (forall rq e, network w rq = inl e -> exn_class e <> SystemExit)
  /\ (forall rq resp e,
         network w rq = inr resp -> json resp = inl e -> exn_class e <> SystemExit).

End Console.

Notation "x <-- m ;; k" := (io_bind m (fun x => k))
  (at level 61, m at next level, right associativity).
Notation "m ;;> k" := (io_bind m (fun _ => k))
  (at level 61, right associativity).

Section Interactive.

Context {L : PyLib}.

(** [bool(x)] for an optional float *)
Definition truthy (x : option float) : bool :=
  match x with
  | Some v => negb (float_eq_int v 0)
  | None => false
  end.

(** the lines both flows print before the order goes out *)
Definition print_summary (title symbol side order_type : string) (qty : float)
           (price_val : option float) : IO unit :=
  print (Str.nl ++ Str.repeat "=" 50) ;;>
  print title ;;>
  print (Str.repeat "=" 50) ;;>
  print ("Symbol: " ++ symbol) ;;>
  print ("Side: " ++ side) ;;>
  print ("Type: " ++ order_type) ;;>
  print ("Quantity: " ++ float_str qty) ;;>
  (if truthy price_val then
     print ("Price: " ++ match price_val with Some p => float_str p | None => "None" end)
   else io_ret tt) ;;>
  print (Str.repeat "=" 50).

(** the order is placed and the response shown *)
Definition place_and_show (self : BinanceFuturesClient.t)
           (symbol side order_type : string) (qty : float) (price_val : option float)
  : IO unit :=
  print (Str.nl ++ "🚀 Placing order...") ;;>
  response <-- run (BinanceFuturesClient.place_order self symbol side order_type
                                                      qty price_val) ;;
  shown <-- run (lift (OrderCLI.format_order_response response)) ;;
  print (Str.nl ++ shown).

(** the [except] clauses of [place_order_interactive] *)
Definition interactive_handler (r : raised) : IO unit :=
  if is_ValueError r then print (Str.nl ++ "❌ Validation Error: " ++ raised_str r)
  else if is_Exception r then print (Str.nl ++ "❌ Error: " ++ raised_str r)
  else io_raise r.

Definition place_order_interactive (self : BinanceFuturesClient.t) : IO unit :=
  print (Str.nl ++ Str.repeat "=" 50) ;;>
  print "BINANCE FUTURES TESTNET ORDER PLACER" ;;>
  print (Str.repeat "=" 50) ;;>
  io_try
    (print "🔍 Testing API connection..." ;;>
     connected <-- run (BinanceFuturesClient.test_connection self) ;;
     if negb connected then
       print "❌ Cannot connect to Binance API. Check credentials and network."
     else
       print "✅ Connected to Binance Futures Testnet" ;;>
       symbol <-- input (Str.nl ++ "Enter trading pair (e.g., BTCUSDT): ") ;;
       let symbol := Str.strip symbol in
       side <-- input "Enter side (BUY/SELL): " ;;
       let side := Str.strip side in
       order_type <-- input "Enter order type (MARKET/LIMIT): " ;;
       let order_type := Str.strip order_type in
       quantity <-- input "Enter quantity: " ;;
       let quantity := Str.strip quantity in
       price <-- (if String.eqb (Str.upper order_type) "LIMIT" then
                    price <-- input "Enter price: " ;;
                    io_ret (Some (Str.strip price))
                  else io_ret None) ;;
       validated <-- run (lift (OrderCLI.validate_inputs symbol side order_type
                                                          quantity price)) ;;
       let '(symbol, side, order_type, qty, price_val) := validated in
       print_summary "📋 ORDER SUMMARY" symbol side order_type qty price_val ;;>
       confirm <-- input (Str.nl ++ "Confirm order? (yes/no): ") ;;
       let confirm := Str.lower (Str.strip confirm) in
       if negb (String.eqb confirm "yes") then print "Order cancelled."
       else place_and_show self symbol side order_type qty price_val)
    interactive_handler.

End Interactive.

Section Arguments.

Context {L : PyLib}.

(** [Decimal(x)] for a float: exact, and never an error *)
Variable decimal_of_float : float -> Dec.decimal.

(** the namespace [argparse] hands over for the mode [place] *)
Record args : Type := {
  args_symbol : string;
  args_side : string;
  args_order_type : string;
  args_quantity : float;
  args_price : option float
}.

(** [not price] for an optional float *)
Definition falsy (price : option float) : bool := negb (truthy price).

(** the [try] block of the quantity, for a float *)
Definition check_quantity (quantity : float) (errors : list string)
  : list string * Dec.decimal :=
  let qty := decimal_of_float quantity in
  match Dec.le_zero qty with
  | Some true => (list_append errors "Quantity must be greater than 0", qty)
  | Some false => (errors, qty)
  | None => (list_append errors "Quantity must be a valid number", qty)
  end.

(** the block of the price, for an optional float *)
Definition check_price (order_type : string) (price : option float)
           (errors : list string) : list string * option Dec.decimal :=
  if String.eqb (Str.upper order_type) "LIMIT" then
    match price with
    | Some p =>
        if falsy price then (list_append errors "Price is required for LIMIT orders", None)
        else
          let price_val := decimal_of_float p in
          match Dec.le_zero price_val with
          | Some true =>
              (list_append errors "Price must be greater than 0", Some price_val)
          | Some false => (errors, Some price_val)
          | None => (list_append errors "Price must be a valid number", Some price_val)
          end
    | None => (list_append errors "Price is required for LIMIT orders", None)
    end
  else (errors, None).

(** [validate_inputs] as [run_from_args] calls it: the quantity and the
    price are floats *)
Definition validate_inputs (symbol side order_type : string) (quantity : float)
           (price : option float)
  : exn + (string * string * string * float * option float) :=
  let errors := [] in
  let errors := OrderCLI.check_symbol symbol errors in
  let errors := OrderCLI.check_side side errors in
  let errors := OrderCLI.check_order_type order_type errors in
  let '(errors, qty) := check_quantity quantity errors in
  let '(errors, price_val) := check_price order_type price errors in
  match errors with
  | _ :: _ => inl (Exn ValueError (String.concat Str.nl errors))
  | [] =>
      inr (Str.upper symbol, Str.upper side, Str.upper order_type,
           float_of_decimal qty,
           match price_val with
           | Some p => if Dec.truthy p then Some (float_of_decimal p) else None
           | None => None
           end)
  end.

(** [sys.exit(1)] *)
Definition sys_exit_1 {A} : IO A := io_raise (Py (Exn SystemExit "1")).

Definition run_from_args (self : BinanceFuturesClient.t) (a : args) : IO unit :=
  io_try
    (connected <-- run (BinanceFuturesClient.test_connection self) ;;
     (if negb connected then
        print "❌ Cannot connect to Binance API" ;;> sys_exit_1
      else io_ret tt) ;;>
     validated <-- run (lift (validate_inputs (args_symbol a) (args_side a)
                                              (args_order_type a) (args_quantity a)
                                              (args_price a))) ;;
     let '(symbol, side, order_type, qty, price_val) := validated in
     print_summary "📋 ORDER REQUEST SUMMARY" symbol side order_type qty price_val ;;>
     place_and_show self symbol side order_type qty price_val)
    (fun r =>
       if is_Exception r then print ("❌ Error: " ++ raised_str r) ;;> sys_exit_1
       else io_raise r).

End Arguments.

End Flows.

(** * Properties *)

Section Dictionaries.

Context {L : PyLib}.

Lemma dict_get_set_same (d : pydict) (k : string) (v : pyval) :
  dict_get (dict_set d k v) k = Some v.
Proof.
  induction d as [|[k' v'] d IH]; simpl.
  - now rewrite String.eqb_refl.
  - destruct (String.eqb k' k) eqn:E; simpl; rewrite E; auto.
Qed.

Lemma dict_get_set_other (d : pydict) (k k' : string) (v : pyval) :
  String.eqb k' k = false ->
  dict_get (dict_set d k' v) k = dict_get d k.
Proof.
  intros Hk. induction d as [|[k0 v0] d IH]; simpl.
  - now rewrite Hk.
  - destruct (String.eqb k0 k') eqn:E; simpl.
    + apply String.eqb_eq in E. subst k0. now rewrite Hk.
    + destruct (String.eqb k0 k); auto.
Qed.

Lemma dict_set_fresh (d : pydict) (k : string) (v : pyval) :
  dict_mem d k = false ->
  dict_set d k v = (d ++ [(k, v)])%list.
Proof.
  unfold dict_mem. induction d as [|[k0 v0] d IH]; simpl; auto.
  destruct (String.eqb k0 k); [discriminate|].
  intros H. now rewrite IH.
Qed.

End Dictionaries.

Section Strings.

Lemma prefix_app (a b : string) : prefix a (a ++ b) = true.
Proof.
  induction a as [|c a IH]; simpl.
  - now destruct b.
  - destruct (ascii_dec c c); [exact IH|congruence].
Qed.

Lemma index_prefix (m s : string) : prefix m s = true -> index 0 m s <> None.
Proof.
  destruct s as [|c s].
  - destruct m; simpl; congruence.
  - intros H. cbn [index]. rewrite H. discriminate.
Qed.

Lemma index_later (m p t : string) :
  index 0 m t <> None -> index 0 m (p ++ t) <> None.
Proof.
  intros Ht. induction p as [|c p IH]; [exact Ht|].
  change (String c p ++ t) with (String c (p ++ t)). cbn [index].
  destruct (prefix m (String c (p ++ t))); [discriminate|].
  destruct (index 0 m (p ++ t)); [discriminate|contradiction].
Qed.

Lemma index_app (a m b : string) : index 0 m (a ++ m ++ b) <> None.
Proof. apply index_later, index_prefix, prefix_app. Qed.

(** a text contains each of its parts *)
Lemma contains_app (a m b : string) : Str.contains (a ++ m ++ b) m = true.
Proof.
  unfold Str.contains. pose proof (index_app a m b).
  destruct (index 0 m (a ++ m ++ b)); congruence.
Qed.

Lemma append_nil_r (s : string) : s ++ "" = s.
Proof. induction s; simpl; congruence. Qed.

Lemma append_assoc (a b c : string) : (a ++ b) ++ c = a ++ b ++ c.
Proof. induction a; simpl; congruence. Qed.

(** a joined text contains each of the joined lines *)
Lemma contains_concat (sep m : string) (l : list string) :
  In m l -> Str.contains (String.concat sep l) m = true.
Proof.
  induction l as [|x l IH]; [contradiction|].
  intros [->|Hin].
  - destruct l as [|y l]; simpl.
    + rewrite <- (append_nil_r m) at 1. apply (contains_app "" m "").
    + apply (contains_app "" m).
  - destruct l as [|y l]; [contradiction|].
    specialize (IH Hin). unfold Str.contains in *.
    change (String.concat sep (x :: y :: l))
      with (x ++ sep ++ String.concat sep (y :: l)).
    remember (String.concat sep (y :: l)) as t.
    pose proof (index_later m (x ++ sep) t) as G.
    rewrite append_assoc in G.
    destruct (index 0 m t); [|discriminate].
    destruct (index 0 m (x ++ sep ++ t)); [reflexivity|].
    exfalso. apply G; [discriminate|reflexivity].
Qed.

End Strings.

Section Monad.

Context {L : PyLib}.

Lemma silent_ret {A} (a : A) : silent (ret a).
Proof. now intros w. Qed.

Lemma silent_raise {A} (e : exn) : silent (@raise _ A e).
Proof. now intros w. Qed.

Lemma silent_lift {A} (r : exn + A) : silent (lift r).
Proof. now intros w. Qed.

Lemma silent_bind {A B} (m : M A) (k : A -> M B) :
  silent m -> (forall a, silent (k a)) -> silent (bind m k).
Proof.
  intros Hm Hk w. unfold bind. specialize (Hm w).
  destruct (m w) as [[e|a] w']; simpl in *; subst; auto. apply Hk.
Qed.

Lemma silent_try {A} (m : M A) (h : exn -> M A) :
  silent m -> (forall e, silent (h e)) -> silent (try_except m h).
Proof.
  intros Hm Hh w. unfold try_except. specialize (Hm w).
  destruct (m w) as [[e|a] w']; simpl in *; subst; auto. apply Hh.
Qed.

Lemma silent_result {A} (m : M A) (w : world) :
  silent m -> m w = (fst (m w), w).
Proof. intros H. rewrite <- (H w) at 3. apply surjective_pairing. Qed.

Lemma silent_raise_for_status (r : http_response) :
  silent (Requests.raise_for_status r).
Proof.
  unfold Requests.raise_for_status. cbv zeta.
  match goal with |- silent (if ?c then _ else _) => destruct c end;
    [apply silent_ret|apply silent_raise].
Qed.

Lemma silent_response_json (r : http_response) :
  silent (Requests.response_json r).
Proof.
  unfold Requests.response_json.
  destruct (json r); [apply silent_raise|apply silent_ret].
Qed.

Lemma silent_send_handler {A} (e : exn) :
  silent (@BinanceFuturesClient.send_handler _ A e).
Proof.
  unfold BinanceFuturesClient.send_handler.
  destruct (isinstance _ RequestException); [apply silent_raise|].
  destruct (isinstance _ ValueError); apply silent_raise.
Qed.

(** once the network has answered, nothing more is sent *)
Lemma silent_receive (r : M http_response) :
  silent r ->
  silent (try_except
            (response <- r ;;
             Requests.raise_for_status response ;;;
             data <- Requests.response_json response ;;
             ret data)
            BinanceFuturesClient.send_handler).
Proof.
  intros Hr. apply silent_try; [|intros e; apply silent_send_handler].
  apply silent_bind; [exact Hr|intros resp].
  apply silent_bind; [apply silent_raise_for_status|intros _].
  apply silent_bind; [apply silent_response_json|intros d; apply silent_ret].
Qed.

Lemma silent_redirect_check (r : exn + http_response) :
  silent (response <- lift r ;;
          match history response with
          | [] => ret response
          | _ :: _ =>
              raise (Exn Exception
                       ("Request redirected! Wrong URL or endpoint. Final URL: "
                        ++ response_url response))
          end).
Proof.
  apply silent_bind; [apply silent_lift|intros resp].
  destruct (history resp); [apply silent_ret|apply silent_raise].
Qed.

End Monad.

Section Client.

Context {L : PyLib}.

Import BinanceFuturesClient.

Variable self : BinanceFuturesClient.t.

(** [sign_params] reads the clock and nothing else *)
Lemma sign_params_eq (params : option pydict) (signed : bool) (w : world) :
  sign_params self (match params with None => [] | Some p => p end) signed w
  = (inr (Spec.params_sent self params signed (now_ms w)), w).
Proof. destruct signed; reflexivity. Qed.

(** a GET call: what happens once the network has answered *)
Lemma send_request_get (endpoint : string) (params : option pydict)
      (signed : bool) (w : world) :
  _send_request self "GET" endpoint params signed w
  = let rq := Spec.call_of self "GET" endpoint
                           (Spec.params_sent self params signed (now_ms w)) in
    try_except
      (response <- lift (network w rq) ;;
       Requests.raise_for_status response ;;;
       data <- Requests.response_json response ;;
       ret data)
      send_handler (Spec.after_call w rq).
Proof.
  unfold _send_request, bind at 1. rewrite sign_params_eq.
  unfold try_except, bind, session_get, http_call, lift; simpl.
  reflexivity.
Qed.

(** a POST call: the same, after the check of the redirects *)
Lemma send_request_post (endpoint : string) (params : option pydict)
      (signed : bool) (w : world) :
  _send_request self "POST" endpoint params signed w
  = let rq := Spec.call_of self "POST" endpoint
                           (Spec.params_sent self params signed (now_ms w)) in
    try_except
      (response <-
         (response <- lift (network w rq) ;;
          match history response with
          | [] => ret response
          | _ :: _ =>
              raise (Exn Exception
                       ("Request redirected! Wrong URL or endpoint. Final URL: "
                        ++ response_url response))
          end) ;;
       Requests.raise_for_status response ;;;
       data <- Requests.response_json response ;;
       ret data)
      send_handler (Spec.after_call w rq).
Proof.
  unfold _send_request, bind at 1. rewrite sign_params_eq.
  unfold try_except, bind, session_post, http_call, lift; simpl.
  reflexivity.
Qed.

(** any other method: nothing is sent *)
Lemma send_request_other (method endpoint : string) (params : option pydict)
      (signed : bool) (w : world) :
  method <> "GET" -> method <> "POST" ->
  _send_request self method endpoint params signed w
  = (inl (Exn Exception
              ("Invalid response from server: Unsupported HTTP method: " ++ method)),
     w).
Proof.
  intros Hg Hp.
  unfold _send_request, bind at 1. rewrite sign_params_eq.
  apply String.eqb_neq in Hg, Hp.
  unfold try_except, bind. rewrite Hg, Hp. reflexivity.
Qed.

Lemma app_nonempty (a b d : string) (c : ascii) :
  String.eqb (a ++ String c b ++ d) "" = false.
Proof. now destruct a. Qed.

Lemma raise_for_status_error (r : http_response) (w : world) :
  400 <= status_code r < 600 ->
  Requests.raise_for_status r w
  = (inl (Exn RequestException (Spec.http_error_text r)), w).
Proof.
  intros Hs. unfold Requests.raise_for_status, Spec.http_error_text.
  destruct (Z.ltb_spec (status_code r) 500) as [Hlt|Hge].
  - assert (E : (400 <=? status_code r) = true) by (apply Z.leb_le; lia).
    rewrite E. cbn [andb]. cbv zeta.
    rewrite app_nonempty. reflexivity.
  - assert (E1 : (500 <=? status_code r) = true) by (apply Z.leb_le; lia).
    assert (E2 : (status_code r <? 600) = true) by (apply Z.ltb_lt; lia).
    rewrite E1, E2. rewrite andb_false_r. cbn [andb]. cbv zeta.
    rewrite app_nonempty. reflexivity.
Qed.

Lemma raise_for_status_pass (r : http_response) (w : world) :
  status_code r < 400 \/ 600 <= status_code r ->
  Requests.raise_for_status r w = (inr tt, w).
Proof.
  intros Hs. unfold Requests.raise_for_status.
  destruct (Z.ltb_spec (status_code r) 500) as [Hlt|Hge].
  - assert (E : (400 <=? status_code r) = false) by (apply Z.leb_gt; lia).
    assert (E1 : (500 <=? status_code r) = false) by (apply Z.leb_gt; lia).
    rewrite E, E1. reflexivity.
  - assert (E2 : (status_code r <? 600) = false) by (apply Z.ltb_ge; lia).
    rewrite E2. rewrite !andb_false_r. reflexivity.
Qed.

(** C10. A POST call whose response came through one or more redirects
    raises an exception that ends with the final address, whatever the
    status of the response; a GET call makes no such check: with a 2xx
    status and a body that decodes it returns the decoded body, redirects
    or not. *)
Theorem post_redirect_raises (endpoint : string) (params : option pydict)
        (signed : bool) (w : world) (resp : http_response) :
  let data := Spec.params_sent self params signed (now_ms w) in
  (network w (Spec.call_of self "POST" endpoint data) = inr resp ->
   history resp <> [] ->
   _send_request self "POST" endpoint params signed w
   = (inl (Exn Exception
               ("Request redirected! Wrong URL or endpoint. Final URL: "
                ++ response_url resp)),
      Spec.after_call w (Spec.call_of self "POST" endpoint data)))
  /\ (forall d : pydict,
         network w (Spec.call_of self "GET" endpoint data) = inr resp ->
         200 <= status_code resp < 300 ->
         json resp = inr d ->
         _send_request self "GET" endpoint params signed w
         = (inr d, Spec.after_call w (Spec.call_of self "GET" endpoint data))).
Proof.
  cbv zeta. split.
  - intros Hnet Hhist. rewrite send_request_post. cbv zeta.
    unfold try_except, bind, lift. rewrite Hnet.
    destruct (history resp) as [|h t]; [congruence|].
    reflexivity.
  - intros d Hnet Hs Hj. rewrite send_request_get. cbv zeta.
    unfold try_except, bind, lift. rewrite Hnet.
    rewrite raise_for_status_pass by lia.
    unfold Requests.response_json. rewrite Hj. reflexivity.
Qed.

(** C2, as the code has it. When the server answers a GET call, or a POST
    call that followed no redirect, with a status from 400 to 599, the
    call raises a plain [Exception] whose message is [Network error: ]
    followed by the text of the HTTP error, which starts with the status
    code; a transport failure raises the same class with the same
    prefix. Any other status, of the 2xx range or not, is no error: the
    decoded body is returned. *)
Theorem http_error_is_network_error (method endpoint : string)
        (params : option pydict) (signed : bool) (w : world)
        (resp : http_response) (m : string) (d : pydict) :
  let rq := Spec.call_of self method endpoint
                         (Spec.params_sent self params signed (now_ms w)) in
  (method = "GET" \/ (method = "POST" /\ history resp = []) ->
   400 <= status_code resp < 600 ->
   network w rq = inr resp ->
   _send_request self method endpoint params signed w
   = (inl (Exn Exception ("Network error: " ++ Spec.http_error_text resp)),
      Spec.after_call w rq))
  /\ (method = "GET" \/ method = "POST" ->
      network w rq = inl (Exn RequestException m) ->
      _send_request self method endpoint params signed w
      = (inl (Exn Exception ("Network error: " ++ m)), Spec.after_call w rq))
  /\ (method = "GET" \/ (method = "POST" /\ history resp = []) ->
      status_code resp < 400 \/ 600 <= status_code resp ->
      network w rq = inr resp ->
      json resp = inr d ->
      _send_request self method endpoint params signed w
      = (inr d, Spec.after_call w rq)).
Proof.
  cbv zeta. split; [|split].
  - intros Hm Hs Hnet. destruct Hm as [->|[-> Hh]].
    + rewrite send_request_get. cbv zeta.
      unfold try_except, bind, lift. rewrite Hnet.
      rewrite raise_for_status_error by exact Hs. reflexivity.
    + rewrite send_request_post. cbv zeta.
      unfold try_except, bind, lift. rewrite Hnet, Hh.
      unfold ret at 1.
      rewrite raise_for_status_error by exact Hs. reflexivity.
  - intros Hm Hnet. destruct Hm as [->| ->].
    + rewrite send_request_get. cbv zeta.
      unfold try_except, bind, lift. rewrite Hnet. reflexivity.
    + rewrite send_request_post. cbv zeta.
      unfold try_except, bind, lift. rewrite Hnet. reflexivity.
  - intros Hm Hs Hnet Hj. destruct Hm as [->|[-> Hh]].
    + rewrite send_request_get. cbv zeta.
      unfold try_except, bind, lift. rewrite Hnet.
      rewrite raise_for_status_pass by exact Hs.
      unfold Requests.response_json. rewrite Hj. reflexivity.
    + rewrite send_request_post. cbv zeta.
      unfold try_except, bind, lift. rewrite Hnet, Hh.
      unfold ret at 1.
      rewrite raise_for_status_pass by exact Hs.
      unfold Requests.response_json. rewrite Hj. reflexivity.
Qed.

(** a signed call sends the stamped parameters and their signature *)
Lemma signed_call_signs_sent_params (method endpoint : string)
      (params : option pydict) (w : world) :
  let p := match params with None => [] | Some p => p end in
  let stamped := dict_set p "timestamp" (VInt (now_ms w)) in
  method = "GET" \/ method = "POST" ->
  dict_mem p "signature" = false ->
  exists r : exn + pydict,
    _send_request self method endpoint params true w
    = (r, Spec.after_call w
            (Spec.call_of self method endpoint
               (stamped
                ++ [("signature",
                     VStr (hmac_sha256_hex (secret_key self)
                                           (Urllib.urlencode stamped)))])%list)).
Proof.
  cbv zeta. intros Hm Hsig.
  set (p := match params with None => [] | Some p => p end) in *.
  set (stamped := dict_set p "timestamp" (VInt (now_ms w))).
  assert (Hfresh : dict_mem stamped "signature" = false).
  { unfold dict_mem, stamped. rewrite dict_get_set_other by reflexivity.
    exact Hsig. }
  assert (Hdata : Spec.params_sent self params true (now_ms w)
                  = (stamped ++ [("signature",
                                  VStr (hmac_sha256_hex (secret_key self)
                                          (Urllib.urlencode stamped)))])%list).
  { unfold Spec.params_sent, Spec.signed_params. fold p. fold stamped.
    apply dict_set_fresh. exact Hfresh. }
  destruct Hm as [->| ->].
  - rewrite send_request_get. cbv zeta. rewrite Hdata.
    eexists. apply silent_result, silent_receive, silent_lift.
  - rewrite send_request_post. cbv zeta. rewrite Hdata.
    eexists. apply silent_result, silent_receive, silent_redirect_check.
Qed.

(** C4. A signed GET or POST call first sets the timestamp (the clock in
    milliseconds) in the parameters, at their end when they hold none,
    then computes the signature as the HMAC of the secret key and the
    URL-encoding of the parameters with the timestamp, and sends exactly
    those parameters followed by the signature; the parameters handed in
    hold no signature of their own. *)
Theorem signed_call_signs_what_it_sends (method endpoint : string)
        (params : option pydict) (w : world) :
  let p := match params with None => [] | Some p => p end in
  let stamped := dict_set p "timestamp" (VInt (now_ms w)) in
  let signature := hmac_sha256_hex (secret_key self) (Urllib.urlencode stamped) in
  method = "GET" \/ method = "POST" ->
  dict_mem p "signature" = false ->
  exists r : exn + pydict,
    _send_request self method endpoint params true w
    = (r, Spec.after_call w
            (Spec.call_of self method endpoint
                          (stamped ++ [("signature", VStr signature)])%list))
    /\ signature = _generate_signature self stamped
    /\ dict_get stamped "timestamp" = Some (VInt (now_ms w))
    /\ dict_mem stamped "signature" = false
    /\ (dict_mem p "timestamp" = false ->
        stamped = (p ++ [("timestamp", VInt (now_ms w))])%list).
Proof.
  cbv zeta. intros Hm Hsig.
  destruct (signed_call_signs_sent_params method endpoint params w Hm Hsig)
    as [r Hr].
  exists r. split; [exact Hr|]. split; [reflexivity|].
  split; [apply dict_get_set_same|]. split; [|apply dict_set_fresh].
  unfold dict_mem. rewrite dict_get_set_other by reflexivity. exact Hsig.
Qed.

Lemma try_reraise {A} (m : M A) (w : world) :
  try_except (r <- m ;; ret r) (fun e => raise e) w = m w.
Proof.
  unfold try_except, bind, ret, raise.
  destruct (m w) as [[e|a] w']; reflexivity.
Qed.

(** an order that passes the four checks goes out as one signed POST call *)
Lemma place_order_valid (symbol side order_type : string) (quantity : float)
      (price : option float) (w : world) :
  Spec.violated side order_type quantity price = [] ->
  place_order self symbol side order_type quantity price w
  = _send_request self "POST" "/api/v3/order"
                  (Some (Spec.order_params symbol side order_type quantity price))
                  true w.
Proof.
  unfold Spec.violated, place_order, Spec.order_params.
  destruct (Str.mem side ["BUY"; "SELL"]); [|discriminate].
  destruct (Str.mem order_type ["MARKET"; "LIMIT"]); [|discriminate].
  destruct (String.eqb order_type "LIMIT") eqn:El;
    destruct price as [p|]; try discriminate;
    destruct (float_le_zero quantity); try discriminate; intros _; cbn [negb andb];
    unfold bind at 1; cbn [ret dict_set String.eqb Ascii.eqb Bool.eqb app];
    apply try_reraise.
Qed.

(** an order that fails a check is refused at the first check it fails *)
Lemma place_order_invalid (symbol side order_type : string) (quantity : float)
      (price : option float) (w : world) :
  Spec.violated side order_type quantity price <> [] ->
  place_order self symbol side order_type quantity price w
  = (inl (Exn ValueError (hd "" (Spec.violated side order_type quantity price))), w).
Proof.
  unfold Spec.violated, place_order.
  destruct (Str.mem side ["BUY"; "SELL"]); [|reflexivity].
  destruct (Str.mem order_type ["MARKET"; "LIMIT"]); [|reflexivity].
  destruct (String.eqb order_type "LIMIT") eqn:El;
    destruct price as [p|]; try reflexivity;
    destruct (float_le_zero quantity); try reflexivity;
    intros H; now contradiction H.
Qed.

(** C1, as the code has it. An order with a bad side, a bad order type,
    LIMIT without a price or a non-positive quantity is refused before
    anything is sent: the call raises a [ValueError] whose message is that
    of the first violated constraint, in the order side, order type,
    price, quantity, and the world is as before. *)
Theorem place_order_fails_at_first_violation (symbol side order_type : string)
        (quantity : float) (price : option float) (w : world) :
  Spec.violated side order_type quantity price <> [] ->
  exists first rest,
    Spec.violated side order_type quantity price = first :: rest
    /\ place_order self symbol side order_type quantity price w
       = (inl (Exn ValueError first), w).
Proof.
  intros H. rewrite (place_order_invalid _ _ _ _ _ _ H).
  destruct (Spec.violated side order_type quantity price) as [|first rest];
    [congruence|].
  now exists first, rest.
Qed.

(** C3, as the code has it. An order with a quantity that is not above
    zero is refused with a [ValueError] and nothing is sent; for a MARKET
    order a supplied price is ignored, whatever its value. *)
Theorem nonpositive_quantity_rejected (symbol side order_type : string)
        (quantity : float) (price : option float) (w : world) :
  (float_le_zero quantity = true ->
   exists m,
     place_order self symbol side order_type quantity price w
     = (inl (Exn ValueError m), w))
  /\ (forall p : float,
         place_order self symbol side "MARKET" quantity (Some p) w
         = place_order self symbol side "MARKET" quantity None w).
Proof.
  split.
  - intros Hq.
    assert (H : Spec.violated side order_type quantity price <> []).
    { unfold Spec.violated. rewrite Hq.
      intros E. apply app_eq_nil in E as [_ E].
      apply app_eq_nil in E as [_ E]. apply app_eq_nil in E as [_ E].
      discriminate. }
    rewrite (place_order_invalid _ _ _ _ _ _ H). eauto.
  - intros p. unfold place_order. reflexivity.
Qed.

(** C5. A LIMIT order without a price fails validation and nothing is
    sent; a MARKET order with a price, a valid side and a quantity above
    zero passes validation, and the parameters of the call it issues hold
    no price. *)
Theorem limit_needs_price_market_drops_it (symbol side : string)
        (quantity : float) (w : world) :
  (exists m,
      place_order self symbol side "LIMIT" quantity None w
      = (inl (Exn ValueError m), w))
  /\ (forall p : float,
         Str.mem side ["BUY"; "SELL"] = true ->
         float_le_zero quantity = false ->
         exists (r : exn + pydict) (data : pydict),
           place_order self symbol side "MARKET" quantity (Some p) w
           = (r, Spec.after_call w (Spec.call_of self "POST" "/api/v3/order" data))
           /\ dict_get data "price" = None).
Proof.
  split.
  - assert (H : Spec.violated side "LIMIT" quantity None <> []).
    { unfold Spec.violated. cbn [Str.mem existsb String.eqb Ascii.eqb Bool.eqb orb].
      intros E. apply app_eq_nil in E as [_ E].
      apply app_eq_nil in E as [_ E]. apply app_eq_nil in E as [E _].
      discriminate. }
    rewrite (place_order_invalid _ _ _ _ _ _ H). eauto.
  - intros p Hs Hq.
    rewrite place_order_valid
      by (unfold Spec.violated; rewrite Hs, Hq; reflexivity).
    rewrite send_request_post. cbv zeta.
    eexists. eexists. split.
    + apply silent_result, silent_receive, silent_redirect_check.
    + reflexivity.
Qed.

(** C7. An order that passes validation is sent with the symbol in upper
    case, the quantity rounded to 8 places and, for a LIMIT order, the
    price rounded to 2 places. *)
Theorem sent_order_is_normalized (symbol side order_type : string)
        (quantity : float) (price : option float) (w : world) :
  Spec.violated side order_type quantity price = [] ->
  exists (r : exn + pydict) (data : pydict),
    place_order self symbol side order_type quantity price w
    = (r, Spec.after_call w (Spec.call_of self "POST" "/api/v3/order" data))
    /\ dict_get data "symbol" = Some (VStr (Str.upper symbol))
    /\ dict_get data "quantity" = Some (VFloat (float_round quantity 8))
    /\ (order_type = "LIMIT" ->
        exists p, price = Some p
                  /\ dict_get data "price" = Some (VFloat (float_round p 2))).
Proof.
  intros Hv. rewrite (place_order_valid _ _ _ _ _ _ Hv).
  rewrite send_request_post. cbv zeta.
  eexists. eexists. split.
  - apply silent_result, silent_receive, silent_redirect_check.
  - unfold Spec.params_sent, Spec.signed_params.
    rewrite !dict_get_set_other by reflexivity.
    split; [reflexivity|]. split; [reflexivity|].
    intros ->. unfold Spec.violated in Hv. unfold Spec.order_params.
    destruct price as [p|].
    + exists p. split; reflexivity.
    + apply app_eq_nil in Hv as [_ Hv]. apply app_eq_nil in Hv as [_ Hv].
      apply app_eq_nil in Hv as [Hv _]. discriminate.
Qed.

(** the call of a valid order: its parameters, then the timestamp, then the
    signature of all that precedes it *)
Lemma place_order_signed (symbol side order_type : string) (quantity : float)
      (price : option float) (w : world) :
  let stamped :=
    (Spec.order_params symbol side order_type quantity price
     ++ [("timestamp", VInt (now_ms w))])%list in
  Spec.violated side order_type quantity price = [] ->
  exists r : exn + pydict,
    place_order self symbol side order_type quantity price w
    = (r, Spec.after_call w
            (Spec.call_of self "POST" "/api/v3/order"
               (stamped
                ++ [("signature",
                     VStr (hmac_sha256_hex (secret_key self)
                                           (Urllib.urlencode stamped)))])%list)).
Proof.
  cbv zeta. intros Hv. rewrite (place_order_valid _ _ _ _ _ _ Hv).
  assert (Ht : dict_mem (Spec.order_params symbol side order_type quantity price)
                        "timestamp" = false).
  { unfold Spec.order_params.
    destruct (String.eqb order_type "LIMIT"); destruct price; reflexivity. }
  assert (Hs : dict_mem (Spec.order_params symbol side order_type quantity price)
                        "signature" = false).
  { unfold Spec.order_params.
    destruct (String.eqb order_type "LIMIT"); destruct price; reflexivity. }
  destruct (signed_call_signs_sent_params "POST" "/api/v3/order"
              (Some (Spec.order_params symbol side order_type quantity price)) w
              (or_intror eq_refl) Hs) as [r Hr].
  exists r. rewrite Hr. rewrite (dict_set_fresh _ _ _ Ht). reflexivity.
Qed.

End Client.

Section Startup.

Context {L : PyLib}.

(** C8. When, once the [.env] file is loaded, a credential variable is
    unset or holds its placeholder, the validation of the configuration
    raises its error and the constructor of the command line ends the
    process with status 1; nothing is sent. *)
Theorem missing_credentials_stop_startup (dotenv : list (string * string))
        (environ : Config.environ) (w : world) :
  let env := Config.load_dotenv dotenv environ in
  (env "BINANCE_API_KEY" = None
   \/ env "BINANCE_API_KEY" = Some "your_testnet_api_key"
   \/ env "BINANCE_SECRET_KEY" = None
   \/ env "BINANCE_SECRET_KEY" = Some "your_testnet_secret_key") ->
  Config.validate_config (Config.load env)
  = inl (Exn ValueError "Please set your API credentials in .env file or config.py")
  /\ OrderCLI.__init__ (Config.load env) w = (inl (Exn SystemExit "1"), w).
Proof.
  cbv zeta. intros H.
  assert (E : Config.validate_config
                (Config.load (Config.load_dotenv dotenv environ))
              = inl (Exn ValueError
                       "Please set your API credentials in .env file or config.py")).
  { unfold Config.validate_config, Config.load, Config.getenv.
    cbn [Config.API_KEY Config.SECRET_KEY].
    destruct H as [H|[H|[H|H]]]; rewrite H;
      rewrite ?String.eqb_refl, ?orb_true_r; reflexivity. }
  split; [exact E|].
  unfold OrderCLI.__init__, try_except, bind, lift. rewrite E. reflexivity.
Qed.

End Startup.

Section Validation.

Context {L : PyLib}.

Import OrderCLI.

Lemma symbol_check (symbol : string) :
  String.eqb symbol "" || Nat.ltb (String.length symbol) 6
  = negb (Nat.leb 6 (String.length symbol)).
Proof.
  destruct symbol as [|c s]; [reflexivity|].
  cbn [String.eqb orb]. unfold Nat.ltb.
  destruct (Nat.leb_spec 6 (String.length (String c s)));
    destruct (Nat.leb_spec (S (String.length (String c s))) 6);
    simpl in *; try reflexivity; lia.
Qed.

Lemma falsy_price (price : option string) :
  falsy price = true ->
  match price with Some p => Spec.positive_number p | None => false end = false.
Proof.
  destruct price as [p|]; [|reflexivity].
  simpl. intros H. apply String.eqb_eq in H. now subst p.
Qed.

Lemma about_append (errors : list string) (m : string) :
  map Spec.about (list_append errors m) = (map Spec.about errors ++ [Spec.about m])%list.
Proof. unfold list_append. apply map_app. Qed.

Section Checks.

Variables symbol side order_type quantity : string.
Variable price : option string.
Variable errors : list string.

Let ok (c : Spec.constraint) : bool :=
  Spec.holds c symbol side order_type quantity price.

Lemma about_check_symbol :
  map Spec.about (check_symbol symbol errors)
  = (map Spec.about errors ++ Spec.report Spec.CSymbol (ok Spec.CSymbol))%list.
Proof.
  unfold check_symbol, ok, Spec.holds, Spec.report. rewrite symbol_check.
  destruct (Nat.leb 6 (String.length symbol)); cbn [negb].
  - now rewrite app_nil_r.
  - apply about_append.
Qed.

Lemma about_check_side :
  map Spec.about (check_side side errors)
  = (map Spec.about errors ++ Spec.report Spec.CSide (ok Spec.CSide))%list.
Proof.
  unfold check_side, ok, Spec.holds, Spec.report.
  destruct (Str.mem (Str.upper side) ["BUY"; "SELL"]); cbn [negb].
  - now rewrite app_nil_r.
  - apply about_append.
Qed.

Lemma about_check_order_type :
  map Spec.about (check_order_type order_type errors)
  = (map Spec.about errors ++ Spec.report Spec.COrderType (ok Spec.COrderType))%list.
Proof.
  unfold check_order_type, ok, Spec.holds, Spec.report.
  destruct (Str.mem (Str.upper order_type) ["MARKET"; "LIMIT"]); cbn [negb].
  - now rewrite app_nil_r.
  - apply about_append.
Qed.

Lemma about_check_quantity :
  map Spec.about (fst (check_quantity quantity errors))
  = (map Spec.about errors ++ Spec.report Spec.CQuantity (ok Spec.CQuantity))%list.
Proof.
  unfold check_quantity, ok, Spec.holds, Spec.positive_number, Spec.report.
  destruct (Dec.parse quantity) as [qty|];
    [destruct (Dec.le_zero qty) as [[|]|]|]; cbn [fst negb];
    rewrite ?about_append, ?app_nil_r; reflexivity.
Qed.

Lemma about_check_price :
  map Spec.about (fst (check_price order_type price errors))
  = (map Spec.about errors ++ Spec.report Spec.CPrice (ok Spec.CPrice))%list.
Proof.
  unfold check_price, ok, Spec.holds, Spec.report.
  destruct (String.eqb (Str.upper order_type) "LIMIT");
    [|cbn [fst]; now rewrite app_nil_r].
  destruct (falsy price) eqn:Ef.
  - rewrite (falsy_price price Ef). cbn [fst]. apply about_append.
  - destruct price as [p|]; [|discriminate Ef].
    unfold Spec.positive_number.
    destruct (Dec.parse p) as [price_val|];
      [destruct (Dec.le_zero price_val) as [[|]|]|]; cbn [fst negb];
      rewrite ?about_append, ?app_nil_r; reflexivity.
Qed.

End Checks.

(** the errors are one message for each violated constraint, in the order
    of the constraints *)
Lemma errors_are_the_violations (symbol side order_type quantity : string)
      (price : option string) :
  map Spec.about (fst (fst (collect_errors symbol side order_type quantity price)))
  = map Some
        (filter (fun c => negb (Spec.holds c symbol side order_type quantity price))
                Spec.all_constraints).
Proof.
  unfold collect_errors.
  destruct (check_quantity quantity _) as [e4 qty] eqn:E4.
  destruct (check_price order_type price e4) as [e5 price_val] eqn:E5.
  cbn [fst].
  change e5 with (fst (e5, price_val)). rewrite <- E5.
  rewrite (about_check_price symbol side order_type quantity).
  change e4 with (fst (e4, qty)). rewrite <- E4.
  rewrite (about_check_quantity symbol side order_type quantity price).
  rewrite (about_check_order_type symbol side order_type quantity price).
  rewrite (about_check_side symbol side order_type quantity price).
  rewrite (about_check_symbol symbol side order_type quantity price).
  unfold Spec.all_constraints, filter, Spec.report.
  destruct (Spec.holds Spec.CSymbol _ _ _ _ _),
           (Spec.holds Spec.CSide _ _ _ _ _),
           (Spec.holds Spec.COrderType _ _ _ _ _),
           (Spec.holds Spec.CQuantity _ _ _ _ _),
           (Spec.holds Spec.CPrice _ _ _ _ _); reflexivity.
Qed.

Lemma append_not_nil (errors : list string) (m : string) :
  list_append errors m <> [].
Proof. unfold list_append. now destruct errors. Qed.

Lemma check_price_nil (order_type : string) (price : option string)
      (errors : list string) :
  fst (check_price order_type price errors) = [] -> errors = [].
Proof.
  unfold check_price.
  repeat match goal with
         | |- context [match ?x with _ => _ end] => destruct x
         | |- context [if ?x then _ else _] => destruct x
         end; cbn [fst]; intros H; auto; now apply append_not_nil in H.
Qed.

Lemma check_quantity_nil (quantity : string) (errors : list string) :
  fst (check_quantity quantity errors) = [] ->
  exists qty, snd (check_quantity quantity errors) = Some qty.
Proof.
  unfold check_quantity.
  destruct (Dec.parse quantity) as [qty|].
  - destruct (Dec.le_zero qty) as [[|]|]; cbn [snd]; eauto.
  - cbn [fst]. intros H. now apply append_not_nil in H.
Qed.

(** without errors the quantity has been read *)
Lemma no_error_quantity (symbol side order_type quantity : string)
      (price : option string) :
  fst (fst (collect_errors symbol side order_type quantity price)) = [] ->
  exists qty,
    snd (fst (collect_errors symbol side order_type quantity price)) = Some qty.
Proof.
  unfold collect_errors.
  destruct (check_quantity quantity _) as [e4 qty] eqn:E4.
  destruct (check_price order_type price e4) as [e5 price_val] eqn:E5.
  cbn [fst snd]. intros ->.
  assert (H4 : e4 = []).
  { apply (check_price_nil order_type price). now rewrite E5. }
  subst e4.
  destruct (check_quantity_nil quantity _ (f_equal fst E4)) as [q Hq].
  rewrite E4 in Hq. eauto.
Qed.

(** C6. The validation of the command line evaluates every constraint:
    the symbol has at least 6 characters, the side is BUY or SELL, the
    order type is MARKET or LIMIT (both read in upper case), the quantity
    reads as a number above zero, and so does the price when the order
    type is LIMIT. It returns when none is violated; otherwise it raises
    one [ValueError] whose message joins, line by line and in this order,
    one message for each violated constraint, so that every one of them is
    in the message. *)
Theorem validation_reports_every_violation (symbol side order_type quantity : string)
        (price : option string) :
  let violated :=
    filter (fun c => negb (Spec.holds c symbol side order_type quantity price))
           Spec.all_constraints in
  match validate_inputs symbol side order_type quantity price with
  | inr _ => violated = []
  | inl e =>
      exists errors,
        e = Exn ValueError (String.concat Str.nl errors)
        /\ map Spec.about errors = map Some violated
        /\ violated <> []
        /\ Forall (fun m => Str.contains (exn_msg e) m = true) errors
  end.
Proof.
  cbv zeta. unfold validate_inputs.
  pose proof (errors_are_the_violations symbol side order_type quantity price) as Ha.
  pose proof (no_error_quantity symbol side order_type quantity price) as Hq.
  destruct (collect_errors symbol side order_type quantity price)
    as [[errors qty] price_val].
  cbn [fst snd] in Ha, Hq.
  destruct errors as [|m errors].
  - destruct (Hq eq_refl) as [q ->].
    symmetry in Ha. now apply map_eq_nil in Ha.
  - exists (m :: errors). split; [reflexivity|]. split; [exact Ha|].
    split.
    + intros E. rewrite E in Ha. discriminate Ha.
    + apply Forall_forall. intros x Hx. cbn [exn_msg].
      now apply contains_concat.
Qed.

End Validation.

Section Formatting.

Context {L : PyLib}.

(** C9. The response mapping of the example formats to the summary block,
    and the block contains the value of every field of the mapping as it
    prints. *)
Theorem example_response_formats :
  exists out : string,
    OrderCLI.format_order_response Spec.example_response = inr out
    /\ out = String.concat Str.nl
               [Str.repeat "=" 50;
                "✅ ORDER PLACED SUCCESSFULLY";
                Str.repeat "=" 50;
                "Order ID: 123";
                "Symbol: BTCUSDT";
                "Side: BUY";
                "Type: MARKET";
                "Status: FILLED";
                "Quantity: 0.001";
                "Executed Quantity: 0.001";
                "Price: 0";
                "Time: 1234567890";
                Str.repeat "=" 50]
    /\ map (fun kv => py_str (snd kv)) Spec.example_response
       = ["123"; "BTCUSDT"; "BUY"; "MARKET"; "FILLED"; "0.001"; "0.001"; "0";
          "1234567890"]
    /\ Forall (fun kv => Str.contains out (py_str (snd kv)) = true)
              Spec.example_response.
Proof.
  eexists. split; [reflexivity|]. split; [reflexivity|].
  split; [reflexivity|].
  repeat constructor.
Qed.

End Formatting.

(** * Concrete runs *)

Import BinanceFuturesClient.

(** C1, as stated, fails: an order with a bad side and a bad order type
    violates two constraints, and the error names the first one only. *)
Lemma place_order_reports_one_of_two :
  Spec.violated (L := Sample.lib) "HOLD" "STOP" (Sample.num false 1 0) None
  = ["Side must be either 'BUY' or 'SELL'";
     "Order type must be either 'MARKET' or 'LIMIT'"]
  /\ place_order Sample.client "BTCUSDT" "HOLD" "STOP" (Sample.num false 1 0) None
                 (Sample.world_of 1700000000000 (inr Sample.accepted))
     = (inl (Exn ValueError "Side must be either 'BUY' or 'SELL'"),
        Sample.world_of 1700000000000 (inr Sample.accepted))
  /\ Str.contains "Side must be either 'BUY' or 'SELL'"
                  "Order type must be either 'MARKET' or 'LIMIT'" = false.
Proof. repeat split. Qed.

Lemma place_order_fails_at_first_violation_run :
  Spec.violated (L := Sample.lib) "BUY" "LIMIT" (Sample.num true 2 0) None <> []
  /\ exists first rest,
      Spec.violated (L := Sample.lib) "BUY" "LIMIT" (Sample.num true 2 0) None
      = first :: rest
      /\ place_order Sample.client "BTCUSDT" "BUY" "LIMIT" (Sample.num true 2 0) None
                     (Sample.world_of 1700000000000 (inr Sample.accepted))
         = (inl (Exn ValueError first),
            Sample.world_of 1700000000000 (inr Sample.accepted)).
Proof.
  split.
  - vm_compute. discriminate.
  - apply (place_order_fails_at_first_violation (L := Sample.lib)).
    vm_compute. discriminate.
Defined.

(** C2, as stated, fails. A 404 answer makes the call raise a plain
    [Exception] with the prefix of a network error: the message holds the
    status code but nothing of the body, and a transport failure raises the
    same class with the same prefix. A 304 answer, which is not of the 2xx
    range either, raises nothing: its body is decoded and returned. *)
Lemma not_found_looks_like_network_error :
  fst (_send_request Sample.client "POST" "/api/v3/order" None true
                     (Sample.world_of 1700000000000 (inr Sample.not_found)))
  = inl (Exn Exception
             "Network error: 404 Client Error: Not Found for url: https://testnet.binance.vision/api/v3/order")
  /\ Str.contains
       "Network error: 404 Client Error: Not Found for url: https://testnet.binance.vision/api/v3/order"
       (text Sample.not_found) = false
  /\ fst (_send_request Sample.client "POST" "/api/v3/order" None true
                        (Sample.world_of 1700000000000
                                         (inl (Exn RequestException "Read timed out."))))
     = inl (Exn Exception "Network error: Read timed out.")
  /\ fst (_send_request Sample.client "POST" "/api/v3/order" None true
                        (Sample.world_of 1700000000000 (inr Sample.not_modified)))
     = inr [("orderId", VInt 123)].
Proof. repeat split. Qed.

Lemma http_error_is_network_error_run :
  400 <= status_code Sample.not_found < 600
  /\ _send_request Sample.client "GET" "/api/v3/account" None true
                   (Sample.world_of 1700000000000 (inr Sample.not_found))
     = (inl (Exn Exception
                 ("Network error: " ++ Spec.http_error_text Sample.not_found)),
        Spec.after_call
          (Sample.world_of 1700000000000 (inr Sample.not_found))
          (Spec.call_of Sample.client "GET" "/api/v3/account"
                        (Spec.params_sent Sample.client None true 1700000000000)))
  /\ _send_request Sample.client "POST" "/api/v3/order" None true
                   (Sample.world_of 1700000000000
                                    (inl (Exn RequestException "Read timed out.")))
     = (inl (Exn Exception "Network error: Read timed out."),
        Spec.after_call
          (Sample.world_of 1700000000000
                           (inl (Exn RequestException "Read timed out.")))
          (Spec.call_of Sample.client "POST" "/api/v3/order"
                        (Spec.params_sent Sample.client None true 1700000000000)))
  /\ _send_request Sample.client "POST" "/api/v3/order" None true
                   (Sample.world_of 1700000000000 (inr Sample.not_modified))
     = (inr [("orderId", VInt 123)],
        Spec.after_call
          (Sample.world_of 1700000000000 (inr Sample.not_modified))
          (Spec.call_of Sample.client "POST" "/api/v3/order"
                        (Spec.params_sent Sample.client None true 1700000000000))).
Proof.
  split; [simpl; lia|]. split; [|split].
  - apply (proj1 (http_error_is_network_error (L := Sample.lib) Sample.client
                    "GET" "/api/v3/account" None true
                    (Sample.world_of 1700000000000 (inr Sample.not_found))
                    Sample.not_found "" [])).
    + left. reflexivity.
    + simpl. lia.
    + reflexivity.
  - apply (proj1 (proj2 (http_error_is_network_error (L := Sample.lib) Sample.client
                    "POST" "/api/v3/order" None true
                    (Sample.world_of 1700000000000
                                     (inl (Exn RequestException "Read timed out.")))
                    Sample.not_found "Read timed out." []))).
    + right. reflexivity.
    + reflexivity.
  - apply (proj2 (proj2 (http_error_is_network_error (L := Sample.lib) Sample.client
                    "POST" "/api/v3/order" None true
                    (Sample.world_of 1700000000000 (inr Sample.not_modified))
                    Sample.not_modified "" [("orderId", VInt 123)]))).
    + right. split; reflexivity.
    + left. simpl. lia.
    + reflexivity.
    + reflexivity.
Defined.

(** C3, as stated, fails: a MARKET order with the price -5 is not refused,
    the call goes out. *)
Lemma market_order_with_negative_price_is_sent :
  float_le_zero (Sample.num true 5 0) = true
  /\ place_order Sample.client "btcusdt" "BUY" "MARKET" (Sample.num false 1 (-3))
                 (Some (Sample.num true 5 0))
                 (Sample.world_of 1700000000000 (inr Sample.accepted))
     = (inr [("orderId", VInt 123)],
        Spec.after_call
          (Sample.world_of 1700000000000 (inr Sample.accepted))
          (Spec.call_of Sample.client "POST" "/api/v3/order"
             [("symbol", VStr "BTCUSDT"); ("side", VStr "BUY");
              ("type", VStr "MARKET");
              ("quantity", VFloat (Sample.num false 1 (-3)));
              ("newOrderRespType", VStr "ACK");
              ("timestamp", VInt 1700000000000);
              ("signature",
               VStr "hmac-sha256(secret;symbol=BTCUSDT&side=BUY&type=MARKET&quantity=0.001&newOrderRespType=ACK&timestamp=1700000000000)")])).
Proof. split; reflexivity. Qed.

Lemma nonpositive_quantity_rejected_run :
  float_le_zero (Sample.num false 0 0) = true
  /\ exists m,
      place_order Sample.client "BTCUSDT" "SELL" "MARKET" (Sample.num false 0 0) None
                  (Sample.world_of 1700000000000 (inr Sample.accepted))
      = (inl (Exn ValueError m), Sample.world_of 1700000000000 (inr Sample.accepted)).
Proof.
  split.
  - reflexivity.
  - apply (proj1 (nonpositive_quantity_rejected (L := Sample.lib) Sample.client
                    "BTCUSDT" "SELL" "MARKET" (Sample.num false 0 0) None
                    (Sample.world_of 1700000000000 (inr Sample.accepted)))).
    reflexivity.
Defined.

Lemma signed_call_signs_what_it_sends_run :
  dict_mem (L := Sample.lib) [("symbol", VStr "BTCUSDT")] "signature" = false
  /\ exists r,
      _send_request Sample.client "POST" "/api/v3/order"
                    (Some [("symbol", VStr "BTCUSDT")]) true
                    (Sample.world_of 1700000000000 (inr Sample.accepted))
      = (r, Spec.after_call
              (Sample.world_of 1700000000000 (inr Sample.accepted))
              (Spec.call_of Sample.client "POST" "/api/v3/order"
                 [("symbol", VStr "BTCUSDT"); ("timestamp", VInt 1700000000000);
                  ("signature",
                   VStr (Sample.digest
                           "secret" "symbol=BTCUSDT&timestamp=1700000000000"))])).
Proof.
  split.
  - reflexivity.
  - destruct (signed_call_signs_what_it_sends (L := Sample.lib) Sample.client
                "POST" "/api/v3/order" (Some [("symbol", VStr "BTCUSDT")])
                (Sample.world_of 1700000000000 (inr Sample.accepted))
                (or_intror eq_refl) eq_refl) as [r [Hr _]].
    exists r. exact Hr.
Defined.

Lemma limit_needs_price_market_drops_it_run :
  Str.mem "BUY" ["BUY"; "SELL"] = true
  /\ float_le_zero (Sample.num false 1 (-3)) = false
  /\ exists r data,
      place_order Sample.client "btcusdt" "BUY" "MARKET" (Sample.num false 1 (-3))
                  (Some (Sample.num false 50000 0))
                  (Sample.world_of 1700000000000 (inr Sample.accepted))
      = (r, Spec.after_call
              (Sample.world_of 1700000000000 (inr Sample.accepted))
              (Spec.call_of Sample.client "POST" "/api/v3/order" data))
      /\ dict_get data "price" = None.
Proof.
  split; [reflexivity|]. split; [reflexivity|].
  apply (proj2 (limit_needs_price_market_drops_it (L := Sample.lib) Sample.client
                  "btcusdt" "BUY" (Sample.num false 1 (-3))
                  (Sample.world_of 1700000000000 (inr Sample.accepted))));
    reflexivity.
Defined.

Lemma sent_order_is_normalized_run :
  Spec.violated (L := Sample.lib) "SELL" "LIMIT" (Sample.num false 123456789 (-9))
                (Some (Sample.num false 50000125 (-3))) = []
  /\ exists r data,
      place_order Sample.client "ethusdt" "SELL" "LIMIT"
                  (Sample.num false 123456789 (-9))
                  (Some (Sample.num false 50000125 (-3)))
                  (Sample.world_of 1700000000000 (inr Sample.accepted))
      = (r, Spec.after_call
              (Sample.world_of 1700000000000 (inr Sample.accepted))
              (Spec.call_of Sample.client "POST" "/api/v3/order" data))
      /\ dict_get data "symbol" = Some (VStr "ETHUSDT")
      /\ dict_get data "quantity" = Some (VFloat (Sample.num false 12345679 (-8)))
      /\ dict_get data "price" = Some (VFloat (Sample.num false 5000012 (-2))).
Proof.
  split; [reflexivity|].
  destruct (sent_order_is_normalized (L := Sample.lib) Sample.client
              "ethusdt" "SELL" "LIMIT" (Sample.num false 123456789 (-9))
              (Some (Sample.num false 50000125 (-3)))
              (Sample.world_of 1700000000000 (inr Sample.accepted)) eq_refl)
    as [r [data [Hr [Hs [Hq Hp]]]]].
  destruct (Hp eq_refl) as [p [Ep Hp']].
  exists r, data. split; [exact Hr|]. split; [exact Hs|]. split; [exact Hq|].
  injection Ep as <-. exact Hp'.
Defined.

Lemma missing_credentials_stop_startup_run :
  Config.load_dotenv [("BINANCE_API_KEY", "k3y")] (fun _ => None)
                     "BINANCE_SECRET_KEY" = None
  /\ OrderCLI.__init__
       (Config.load (Config.load_dotenv [("BINANCE_API_KEY", "k3y")] (fun _ => None)))
       (Sample.world_of 1700000000000 (inr Sample.accepted))
     = (inl (Exn SystemExit "1"), Sample.world_of 1700000000000 (inr Sample.accepted)).
Proof.
  split; [reflexivity|].
  apply (missing_credentials_stop_startup (L := Sample.lib)
           [("BINANCE_API_KEY", "k3y")] (fun _ => None)).
  right. right. left. reflexivity.
Defined.

Lemma post_redirect_raises_run :
  history Sample.redirected <> []
  /\ 200 <= status_code Sample.redirected < 300
  /\ _send_request Sample.client "POST" "/api/v3/order" None true
                   (Sample.world_of 1700000000000 (inr Sample.redirected))
     = (inl (Exn Exception
                 "Request redirected! Wrong URL or endpoint. Final URL: https://www.binance.vision/api/v3/order"),
        Spec.after_call
          (Sample.world_of 1700000000000 (inr Sample.redirected))
          (Spec.call_of Sample.client "POST" "/api/v3/order"
                        (Spec.params_sent Sample.client None true 1700000000000)))
  /\ _send_request Sample.client "GET" "/api/v3/order" None true
                   (Sample.world_of 1700000000000 (inr Sample.redirected))
     = (inr [("orderId", VInt 123)],
        Spec.after_call
          (Sample.world_of 1700000000000 (inr Sample.redirected))
          (Spec.call_of Sample.client "GET" "/api/v3/order"
                        (Spec.params_sent Sample.client None true 1700000000000))).
Proof.
  split; [discriminate|]. split; [simpl; lia|].
  destruct (post_redirect_raises (L := Sample.lib) Sample.client "/api/v3/order"
              None true (Sample.world_of 1700000000000 (inr Sample.redirected))
              Sample.redirected) as [Hpost Hget].
  split.
  - apply Hpost; [reflexivity|discriminate].
  - apply Hget; [reflexivity|simpl; lia|reflexivity].
Defined.

(** * Further properties of the client *)

Section Requests.

Context {L : PyLib}.

Variable self : BinanceFuturesClient.t.

(** whatever the block of [_send_request] raises, its [except] clauses let
    neither a [RequestException] nor a [ValueError] through *)
Lemma send_handler_classes {A} (m : M A) (w : world) (e : exn) :
  fst (try_except m send_handler w) = inl e ->
  exn_class e <> RequestException /\ exn_class e <> ValueError.
Proof.
  unfold try_except. destruct (m w) as [[e0|a] w']; [|discriminate].
  unfold send_handler.
  destruct (isinstance (exn_class e0) RequestException) eqn:E1;
    [intros H; injection H as <-; split; discriminate|].
  destruct (isinstance (exn_class e0) ValueError) eqn:E2;
    [intros H; injection H as <-; split; discriminate|].
  intros H. injection H as <-.
  split; intros C; rewrite C in *; discriminate.
Qed.

(** the world after a call of [_send_request] *)
Lemma send_request_world (method endpoint : string)
        (params : option pydict) (signed : bool) (w : world) :
  snd (_send_request self method endpoint params signed w)
  = if String.eqb method "GET" || String.eqb method "POST"
    then Spec.after_call w
           (Spec.call_of self method endpoint
                         (Spec.params_sent self params signed (now_ms w)))
    else w.
Proof.
  destruct (String.eqb method "GET") eqn:Eg.
  - apply String.eqb_eq in Eg. subst method. cbn [orb].
    rewrite send_request_get. cbv zeta.
    apply silent_receive, silent_lift.
  - destruct (String.eqb method "POST") eqn:Ep; cbn [orb].
    + apply String.eqb_eq in Ep. subst method.
      rewrite send_request_post. cbv zeta.
      apply silent_receive, silent_redirect_check.
    + apply String.eqb_neq in Eg, Ep.
      now rewrite send_request_other.
Qed.

(** X1. A call of [_send_request] issues exactly one HTTP call when the
    method is GET or POST, whatever the network answers (a failure, an
    error status, a redirect, a body that does not decode): there is no
    second attempt. For any other method it issues none. The clock and the
    network are left as they were. *)
Theorem send_request_issues_one_call (method endpoint : string)
        (params : option pydict) (signed : bool) (w : world) :
  snd (_send_request self method endpoint params signed w)
  = if String.eqb method "GET" || String.eqb method "POST"
    then Spec.after_call w
           (Spec.call_of self method endpoint
                         (Spec.params_sent self params signed (now_ms w)))
    else w.
Proof. apply send_request_world. Qed.

(** X2. A method other than GET and POST is refused without a call: the
    [ValueError] raised for it is caught by the function's own clause for
    responses that do not decode, so the caller sees an [Exception] that
    speaks of an invalid response from the server. *)
Theorem unsupported_method_is_reported_as_bad_response (method endpoint : string)
        (params : option pydict) (signed : bool) (w : world) :
  method <> "GET" -> method <> "POST" ->
  _send_request self method endpoint params signed w
  = (inl (Exn Exception
              ("Invalid response from server: Unsupported HTTP method: " ++ method)),
     w).
Proof. apply send_request_other. Qed.

Lemma send_request_error_class (method endpoint : string)
      (params : option pydict) (signed : bool) (w : world) (e : exn) :
  fst (_send_request self method endpoint params signed w) = inl e ->
  exn_class e <> RequestException /\ exn_class e <> ValueError.
Proof.
  unfold _send_request, bind at 1. rewrite sign_params_eq.
  apply send_handler_classes.
Qed.

(** X3. No [RequestException] and no [ValueError] leaves [_send_request]:
    an exception it raises has another class. *)
Theorem send_request_hides_library_errors (method endpoint : string)
        (params : option pydict) (signed : bool) (w : world) (e : exn) :
  fst (_send_request self method endpoint params signed w) = inl e ->
  exn_class e <> RequestException /\ exn_class e <> ValueError.
Proof. apply send_request_error_class. Qed.

(** X4. When the status is no error but the body does not decode, the call
    raises an [Exception]: with the prefix of an invalid response when the
    decoding error is a [ValueError], and with the prefix of a network
    error when it is a [RequestException], as in the versions of the
    library whose decoding error is both. *)
Theorem undecodable_body_is_reported (method endpoint : string)
        (params : option pydict) (signed : bool) (w : world)
        (resp : http_response) (e : exn) :
  let rq := Spec.call_of self method endpoint
                         (Spec.params_sent self params signed (now_ms w)) in
  method = "GET" \/ (method = "POST" /\ history resp = []) ->
  status_code resp < 400 \/ 600 <= status_code resp ->
  network w rq = inr resp ->
  json resp = inl e ->
  (exn_class e = ValueError ->
   _send_request self method endpoint params signed w
   = (inl (Exn Exception ("Invalid response from server: " ++ exn_msg e)),
      Spec.after_call w rq))
  /\ (exn_class e = RequestException ->
      _send_request self method endpoint params signed w
      = (inl (Exn Exception ("Network error: " ++ exn_msg e)),
         Spec.after_call w rq)).
Proof.
  cbv zeta. intros Hm Hs Hnet Hj.
  assert (H : _send_request self method endpoint params signed w
              = send_handler e (Spec.after_call w
                   (Spec.call_of self method endpoint
                      (Spec.params_sent self params signed (now_ms w))))).
  { destruct Hm as [->|[-> Hh]].
    - rewrite send_request_get. cbv zeta.
      unfold try_except, bind, lift. rewrite Hnet.
      rewrite raise_for_status_pass by exact Hs.
      unfold Requests.response_json. rewrite Hj. reflexivity.
    - rewrite send_request_post. cbv zeta.
      unfold try_except, bind, lift. rewrite Hnet, Hh. unfold ret at 1.
      rewrite raise_for_status_pass by exact Hs.
      unfold Requests.response_json. rewrite Hj. reflexivity. }
  rewrite H. unfold send_handler.
  split; intros ->; reflexivity.
Qed.

(** X5. A [ValueError] from [place_order] is a refusal of the validation:
    nothing was sent, and its message is that of a violated constraint.
    Once the call has gone out, no error of [place_order] is a
    [ValueError]. *)
Theorem place_order_value_error_means_not_sent (symbol side order_type : string)
        (quantity : float) (price : option float) (w : world) (e : exn) :
  fst (place_order self symbol side order_type quantity price w) = inl e ->
  exn_class e = ValueError ->
  snd (place_order self symbol side order_type quantity price w) = w
  /\ In (exn_msg e) (Spec.violated side order_type quantity price).
Proof.
  intros He Hc.
  destruct (Spec.violated side order_type quantity price) as [|m l] eqn:Hv.
  - rewrite (place_order_valid _ _ _ _ _ _ _ Hv) in He.
    apply send_request_error_class in He. tauto.
  - assert (Hn : Spec.violated side order_type quantity price <> [])
      by (rewrite Hv; discriminate).
    rewrite (place_order_invalid _ _ _ _ _ _ _ Hn) in *.
    rewrite Hv in *. cbn [fst snd hd] in *.
    injection He as <-. split; [reflexivity|now left].
Qed.

(** the characters of a printed integer are never escaped *)
Lemma quote_plus_safe (s : string) :
  forallb Urllib.always_safe (list_ascii_of_string s) = true ->
  Urllib.quote_plus s = s.
Proof.
  induction s as [|c s IH]; [reflexivity|].
  cbn [list_ascii_of_string forallb Urllib.quote_plus].
  intros H. apply andb_true_iff in H as [Hc Hs].
  rewrite Hc, IH by exact Hs. reflexivity.
Qed.

Lemma digits_safe (d : Decimal.uint) :
  forallb Urllib.always_safe (list_ascii_of_string (NilEmpty.string_of_uint d)) = true.
Proof. induction d; simpl; auto. Qed.

Lemma quote_plus_of_Z (n : Z) : Urllib.quote_plus (Str.of_Z n) = Str.of_Z n.
Proof.
  apply quote_plus_safe. unfold Str.of_Z, NilZero.string_of_int.
  assert (H : forall d, forallb Urllib.always_safe
                          (list_ascii_of_string (NilZero.string_of_uint d)) = true).
  { intros d. destruct d; try apply digits_safe. reflexivity. }
  destruct (Z.to_int n) as [d|d]; [apply H|].
  cbn [list_ascii_of_string forallb]. rewrite H. reflexivity.
Qed.

(** what becomes of the answer of the network to a GET call: the body is
    returned exactly when there is a response, its status is no error and
    its body decodes *)
Lemma receive_succeeds_iff (r : exn + http_response) (w : world) (d : pydict) :
  fst (try_except
         (response <- lift r ;;
          Requests.raise_for_status response ;;;
          data <- Requests.response_json response ;;
          ret data)
         send_handler w) = inr d
  <-> exists resp,
      r = inr resp
      /\ (status_code resp < 400 \/ 600 <= status_code resp)
      /\ json resp = inr d.
Proof.
  unfold try_except, bind at 1, lift.
  destruct r as [e|resp].
  - split.
    + intros H. exfalso. revert H. unfold send_handler.
      destruct (isinstance _ RequestException); [discriminate|].
      destruct (isinstance _ ValueError); discriminate.
    + intros [resp [H _]]. discriminate.
  - destruct (Z_lt_dec (status_code resp) 400) as [Hlo|Hlo];
      [|destruct (Z_le_dec 600 (status_code resp)) as [Hhi|Hhi]].
    1,2: unfold bind; rewrite raise_for_status_pass by lia;
      unfold Requests.response_json;
      destruct (json resp) as [e|d'] eqn:Hj.
    1,3: split;
      [ intros H; exfalso; revert H; unfold raise at 1, send_handler;
        destruct (isinstance _ RequestException); [discriminate|];
        destruct (isinstance _ ValueError); discriminate
      | intros [resp' [E [_ Hj']]]; injection E as <-; congruence ].
    1,2: cbn [fst ret]; split;
      [ intros H; injection H as <-; exists resp; repeat split; auto; lia
      | intros [resp' [E [_ Hj']]]; injection E as <-; congruence ].
    unfold bind. rewrite raise_for_status_error by lia.
    split.
    + intros H. discriminate H.
    + intros [resp' [E [Hs _]]]. injection E as <-. lia.
Qed.

(** the one call of [test_connection] and its answer *)
Lemma test_connection_result (w : world) :
  let rq := Spec.call_of self "GET" "/api/v3/ping" [] in
  exists b : bool,
    test_connection self w = (inr b, Spec.after_call w rq)
    /\ (b = true
        <-> exists resp d,
            network w rq = inr resp
            /\ (status_code resp < 400 \/ 600 <= status_code resp)
            /\ json resp = inr d).
Proof.
  cbv zeta. unfold test_connection, try_except at 1, bind at 1.
  rewrite send_request_get. cbv zeta.
  change (Spec.params_sent self None false (now_ms w)) with (@nil (string * pyval)).
  set (rq := Spec.call_of self "GET" "/api/v3/ping" []).
  pose proof (silent_receive (lift (network w rq))
                             (silent_lift _) (Spec.after_call w rq)) as Hw.
  pose proof (fun d => receive_succeeds_iff (network w rq)
                                             (Spec.after_call w rq) d) as Hr.
  destruct (try_except _ send_handler (Spec.after_call w rq)) as [[e|d] w'].
  - cbn [snd] in Hw. subst w'. exists false. split; [reflexivity|].
    split; [discriminate|].
    intros [resp [d H]].
    assert (C : fst (@inl exn pydict e, Spec.after_call w rq) = inr d)
      by (apply Hr; exists resp; exact H).
    discriminate C.
  - cbn [snd] in Hw. subst w'. exists true. split; [reflexivity|].
    split; [|reflexivity]. intros _.
    destruct (proj1 (Hr d) eq_refl) as [resp H]. exists resp, d. exact H.
Qed.

(** X6. [test_connection] never raises. It issues one GET call for the
    ping, without parameters, timestamp or signature, and answers [True]
    exactly when the network gave a response whose status is no error and
    whose body decodes; every failure is the answer [False]. *)
Theorem test_connection_never_raises (w : world) :
  let rq := Spec.call_of self "GET" "/api/v3/ping" [] in
  exists b : bool,
    test_connection self w = (inr b, Spec.after_call w rq)
    /\ (b = true
        <-> exists resp d,
            network w rq = inr resp
            /\ (status_code resp < 400 \/ 600 <= status_code resp)
            /\ json resp = inr d).
Proof. apply test_connection_result. Qed.

(** X7. [get_account_info] issues one signed GET call for the account
    whose parameters are the timestamp and the signature, in this order,
    the signature being the HMAC of the text [timestamp=] followed by the
    digits of the timestamp. *)
Theorem get_account_info_call (w : world) :
  exists r : exn + pydict,
    get_account_info self w
    = (r, Spec.after_call w
            (Spec.call_of self "GET" "/api/v3/account"
               [("timestamp", VInt (now_ms w));
                ("signature",
                 VStr (hmac_sha256_hex (secret_key self)
                                       ("timestamp=" ++ Str.of_Z (now_ms w))))])).
Proof.
  unfold get_account_info. rewrite send_request_get. cbv zeta.
  assert (E : Spec.params_sent self None true (now_ms w)
              = [("timestamp", VInt (now_ms w));
                 ("signature",
                  VStr (hmac_sha256_hex (secret_key self)
                                        ("timestamp=" ++ Str.of_Z (now_ms w))))]).
  { unfold Spec.params_sent, Spec.signed_params.
    cbn [dict_set String.eqb Ascii.eqb Bool.eqb].
    unfold Urllib.urlencode. cbn [map fst snd String.concat py_str].
    rewrite quote_plus_of_Z. reflexivity. }
  rewrite E. eexists. apply silent_result, silent_receive, silent_lift.
Qed.

End Requests.

(** * Further properties of the command line *)

Section Inputs.

Context {L : PyLib}.

Lemma upper_length (s : string) : String.length (Str.upper s) = String.length s.
Proof. induction s; simpl; congruence. Qed.

Lemma mem_two (s a b : string) :
  Str.mem s [a; b] = true -> s = a \/ s = b.
Proof.
  unfold Str.mem. cbn [existsb]. rewrite orb_false_r.
  intros H. apply orb_true_iff in H as [H|H]; apply String.eqb_eq in H; auto.
Qed.

(** X8. Unless the order type reads LIMIT, the price handed to the
    validation plays no part: it is not even parsed, and the result is the
    one without a price. *)
Theorem validation_ignores_price_unless_limit
        (symbol side order_type quantity : string) (price : option string) :
  Str.upper order_type <> "LIMIT" ->
  OrderCLI.validate_inputs symbol side order_type quantity price
  = OrderCLI.validate_inputs symbol side order_type quantity None.
Proof.
  intros H. apply String.eqb_neq in H.
  unfold OrderCLI.validate_inputs, OrderCLI.collect_errors, OrderCLI.check_price.
  rewrite H. reflexivity.
Qed.

(** a positive decimal is not zero *)
Lemma positive_truthy (d : Dec.decimal) :
  Dec.le_zero d = Some false -> Dec.truthy d = true.
Proof.
  destruct d as [neg c e|neg|]; simpl; try reflexivity; try discriminate.
  intros H. injection H as H. apply orb_false_iff in H as [_ H].
  now rewrite H.
Qed.

(** the price of a validation without errors *)
Lemma check_price_accepts (order_type : string) (price : option string)
      (errors : list string) :
  fst (OrderCLI.check_price order_type price errors) = [] ->
  (String.eqb (Str.upper order_type) "LIMIT" = true
   /\ exists d, snd (OrderCLI.check_price order_type price errors) = Some d
                /\ Dec.truthy d = true)
  \/ (String.eqb (Str.upper order_type) "LIMIT" = false
      /\ snd (OrderCLI.check_price order_type price errors) = None).
Proof.
  unfold OrderCLI.check_price.
  destruct (String.eqb (Str.upper order_type) "LIMIT"); [|now right].
  destruct (OrderCLI.falsy price).
  - cbn [fst]. intros H. now apply append_not_nil in H.
  - destruct (Dec.parse _) as [d|];
      [destruct (Dec.le_zero d) as [[|]|] eqn:Hd|]; cbn [fst snd]; intros H;
      try (now apply append_not_nil in H).
    left. split; [reflexivity|]. exists d. split; [reflexivity|].
    now apply positive_truthy.
Qed.

Lemma check_nil (b : bool) (errors : list string) (m : string) :
  (if b then list_append errors m else errors) = [] -> b = false /\ errors = [].
Proof.
  destruct b; [intros H; now apply append_not_nil in H|auto].
Qed.

Lemma check_quantity_keeps (quantity : string) (errors : list string) :
  fst (OrderCLI.check_quantity quantity errors) = [] -> errors = [].
Proof.
  unfold OrderCLI.check_quantity.
  destruct (Dec.parse quantity) as [d|];
    [destruct (Dec.le_zero d) as [[|]|]|]; cbn [fst]; intros H; auto;
    now apply append_not_nil in H.
Qed.

(** X9. What the validation returns is ready for the client: the symbol is
    the input in upper case and has at least 6 characters, the side is BUY
    or SELL, the order type is MARKET or LIMIT, and there is a price exactly
    when the order type is LIMIT. Of the checks of [place_order] only the
    one of the quantity can still fail, since the quantity is converted to
    a float in between. *)
Theorem validated_order_passes_client_checks
        (symbol side order_type quantity : string) (price : option string)
        (symbol' side' order_type' : string) (qty : float) (price_val : option float) :
  OrderCLI.validate_inputs symbol side order_type quantity price
  = inr (symbol', side', order_type', qty, price_val) ->
  symbol' = Str.upper symbol
  /\ (6 <= String.length symbol')%nat
  /\ (side' = "BUY" \/ side' = "SELL")
  /\ (order_type' = "MARKET" \/ order_type' = "LIMIT")
  /\ (order_type' = "LIMIT" <-> price_val <> None)
  /\ Spec.violated side' order_type' qty price_val
     = if float_le_zero qty then ["Quantity must be greater than 0"] else [].
Proof.
  unfold OrderCLI.validate_inputs, OrderCLI.collect_errors.
  destruct (OrderCLI.check_quantity quantity _) as [e4 q] eqn:E4.
  destruct (OrderCLI.check_price order_type price e4) as [e5 pv] eqn:E5.
  destruct e5 as [|m e5]; [|discriminate].
  pose proof (check_price_nil order_type price e4) as H4.
  pose proof (check_price_accepts order_type price e4) as Hp.
  rewrite E5 in H4, Hp. cbn [fst snd] in H4, Hp.
  specialize (H4 eq_refl). specialize (Hp eq_refl). subst e4.
  pose proof (check_quantity_keeps quantity _ (f_equal fst E4)) as H3.
  unfold OrderCLI.check_order_type in H3. apply check_nil in H3 as [Ht H2].
  unfold OrderCLI.check_side in H2. apply check_nil in H2 as [Hs H1].
  unfold OrderCLI.check_symbol in H1. apply check_nil in H1 as [Hy _].
  apply negb_false_iff in Ht, Hs.
  destruct q as [q|]; [|discriminate].
  intros H. injection H as <- <- <- <- <-.
  split; [reflexivity|]. split.
  { rewrite upper_length. apply orb_false_iff in Hy as [_ Hy].
    apply Nat.ltb_ge in Hy. exact Hy. }
  split; [now apply mem_two|]. split; [now apply mem_two|].
  unfold Spec.violated. rewrite Hs, Ht. cbn [app].
  destruct Hp as [[El [d [-> Hd]]]|[El ->]].
  - rewrite Hd. apply String.eqb_eq in El. rewrite El.
    split; [split; [discriminate|reflexivity]|reflexivity].
  - rewrite El. split; [|reflexivity].
    apply String.eqb_neq in El. split; [contradiction|congruence].
Qed.

(** X10. Formatting a response raises only through the average price: an
    error can only be the one of converting the value under [avgPrice] to a
    float, for a response whose error code is absent or 200. A response
    without [avgPrice], and every response with another error code, is
    formatted to a text. *)
Theorem formatting_raises_only_on_average_price (response : pydict) (e : exn) :
  OrderCLI.format_order_response response = inl e ->
  exists a,
    dict_get response "avgPrice" = Some a
    /\ OrderCLI.py_float a = inl e
    /\ match dict_get response "code" with
       | Some c => OrderCLI.ne_int c 200 = false
       | None => True
       end.
Proof.
  unfold OrderCLI.format_order_response.
  destruct (dict_get response "code") as [c|].
  - destruct (OrderCLI.ne_int c 200) eqn:Hc; [discriminate|].
    destruct (dict_get response "avgPrice") as [a|]; [|discriminate].
    destruct (OrderCLI.py_float a) as [e'|x] eqn:Ha.
    + intros H. injection H as <-. exists a. auto.
    + destruct (float_gt_zero x); discriminate.
  - destruct (dict_get response "avgPrice") as [a|]; [|discriminate].
    destruct (OrderCLI.py_float a) as [e'|x] eqn:Ha.
    + intros H. injection H as <-. exists a. auto.
    + destruct (float_gt_zero x); discriminate.
Qed.

(** X11. The constructor of the command line succeeds exactly when neither
    credential is its placeholder (an empty credential passes); the client
    it returns holds the two credentials and sends the API key in the
    header [X-MBX-APIKEY]. Otherwise the process ends with status 1.
    Either way nothing is sent. *)
Theorem startup_succeeds_iff_no_placeholder (cfg : Config.t) (w : world) :
  OrderCLI.__init__ cfg w
  = (if String.eqb (Config.API_KEY cfg) "your_testnet_api_key"
        || String.eqb (Config.SECRET_KEY cfg) "your_testnet_secret_key"
     then inl (Exn SystemExit "1")
     else inr {| BinanceFuturesClient.api_key := Config.API_KEY cfg;
                 BinanceFuturesClient.secret_key := Config.SECRET_KEY cfg;
                 BinanceFuturesClient.base_url := "https://testnet.binance.vision";
                 BinanceFuturesClient.session_headers :=
                   [("X-MBX-APIKEY", Config.API_KEY cfg);
                    ("Content-Type", "application/json")] |},
     w).
Proof.
  unfold OrderCLI.__init__, Config.validate_config, try_except, bind, lift.
  destruct (String.eqb (Config.API_KEY cfg) "your_testnet_api_key"
            || String.eqb (Config.SECRET_KEY cfg) "your_testnet_secret_key");
    reflexivity.
Qed.

End Inputs.

(** * Properties of the flows *)

Section FlowRules.

Context {L : PyLib}.

Import Flows.

Lemma triple_ret {A} (a : A) (Q : A -> console -> world -> Prop)
      (E : raised -> console -> world -> Prop) :
  triple (Q a) (io_ret a) Q E.
Proof. intros c w H. exact H. Qed.

Lemma triple_raise {A} (r : raised) (Q : A -> console -> world -> Prop)
      (E : raised -> console -> world -> Prop) :
  triple (E r) (io_raise r) Q E.
Proof. intros c w H. exact H. Qed.

Lemma triple_bind {A B} (m : IO A) (k : A -> IO B)
      (P : console -> world -> Prop) (Q : A -> console -> world -> Prop)
      (R : B -> console -> world -> Prop) (E : raised -> console -> world -> Prop) :
  triple P m Q E -> (forall a, triple (Q a) (k a) R E) ->
  triple P (io_bind m k) R E.
Proof.
  intros Hm Hk c w HP. specialize (Hm c w HP). unfold io_bind.
  destruct (m c w) as [[[r|a] c'] w']; [exact Hm|]. apply Hk, Hm.
Qed.

Lemma triple_try {A} (m : IO A) (h : raised -> IO A)
      (P : console -> world -> Prop) (Q : A -> console -> world -> Prop)
      (E' E : raised -> console -> world -> Prop) :
  triple P m Q E' -> (forall r, triple (E' r) (h r) Q E) ->
  triple P (io_try m h) Q E.
Proof.
  intros Hm Hh c w HP. specialize (Hm c w HP). unfold io_try.
  destruct (m c w) as [[[r|a] c'] w']; [|exact Hm]. apply Hh, Hm.
Qed.

Lemma triple_weaken {A} (m : IO A)
      (P P' : console -> world -> Prop) (Q Q' : A -> console -> world -> Prop)
      (E E' : raised -> console -> world -> Prop) :
  triple P m Q E ->
  (forall c w, P' c w -> P c w) ->
  (forall a c w, Q a c w -> Q' a c w) ->
  (forall r c w, E r c w -> E' r c w) ->
  triple P' m Q' E'.
Proof.
  intros Hm HP HQ HE c w H. specialize (Hm c w (HP c w H)).
  destruct (m c w) as [[[r|a] c'] w']; auto.
Qed.

Lemma triple_print (I : list string -> world -> Prop) (s : string)
      (E : raised -> console -> world -> Prop) :
  triple (fun c w => I (stdin c) w) (print s) (fun _ c w => I (stdin c) w) E.
Proof. intros c w H. exact H. Qed.

(** a fact that holds in every state of the precondition may be used *)
Lemma triple_pure {A} (F : Prop) (m : IO A)
      (P : console -> world -> Prop) (Q : A -> console -> world -> Prop)
      (E : raised -> console -> world -> Prop) :
  (forall c w, P c w -> F) -> (F -> triple P m Q E) -> triple P m Q E.
Proof. intros HF Hm c w H. exact (Hm (HF c w H) c w H). Qed.

(** reading a line, which is then known to have been at the head; the
    only exception is the one of the end of the input *)
Lemma triple_input_keep (I : list string -> world -> Prop) (prompt : string)
      (E : raised -> console -> world -> Prop) :
  (forall msg c w, I (stdin c) w -> E (EOFError msg) c w) ->
  triple (fun c w => I (stdin c) w) (input prompt)
         (fun line c w => I (line :: stdin c) w) E.
Proof.
  intros HE c w H. unfold input.
  destruct (stdin c) as [|line rest] eqn:Hc; [|exact H].
  apply HE. cbn [stdin]. exact H.
Qed.

Lemma triple_input (I : list string -> world -> Prop) (prompt : string)
      (E : raised -> console -> world -> Prop) :
  steady I ->
  (forall msg c w, I (stdin c) w -> E (EOFError msg) c w) ->
  triple (fun c w => I (stdin c) w) (input prompt)
         (fun _ c w => I (stdin c) w) E.
Proof.
  intros HI HE. eapply triple_weaken; [apply (triple_input_keep I prompt E HE)|..].
  - auto.
  - intros line c w H. apply (HI line). exact H.
  - auto.
Qed.

(** a step of the client: the console is left as it is *)
Lemma triple_run {A} (I : list string -> world -> Prop) (m : M A)
      (Q : A -> list string -> world -> Prop)
      (E : raised -> list string -> world -> Prop) :
  (forall l w,
      I l w ->
      match m w with
      | (inr a, w') => Q a l w'
      | (inl e, w') => E (Py e) l w'
      end) ->
  triple (fun c w => I (stdin c) w) (run m)
         (fun a c w => Q a (stdin c) w) (fun r c w => E r (stdin c) w).
Proof.
  intros Hm c w H. unfold run. specialize (Hm _ _ H).
  destruct (m w) as [[e|a] w']; exact Hm.
Qed.

(** a pure step of a flow, whose result is then known *)
Lemma triple_lift {A} (I : list string -> world -> Prop) (r : exn + A)
      (E : raised -> console -> world -> Prop) :
  (forall e c w, r = inl e -> I (stdin c) w -> E (Py e) c w) ->
  triple (fun c w => I (stdin c) w) (run (lift r))
         (fun a c w => I (stdin c) w /\ r = inr a) E.
Proof. intros HE c w H. unfold run, lift. destruct r; auto. Qed.

(** a [print] at the head of a flow *)
Ltac print_step :=
  match goal with
  | |- triple _ (io_bind (print _) _) _ _ =>
      eapply triple_bind; [refine (triple_print _ _ _)|intros ?; cbv beta]
  end.

Lemma triple_summary (I : list string -> world -> Prop)
      (title symbol side order_type : string) (qty : float)
      (price_val : option float) (E : raised -> console -> world -> Prop) :
  triple (fun c w => I (stdin c) w)
         (print_summary title symbol side order_type qty price_val)
         (fun _ c w => I (stdin c) w) E.
Proof.
  unfold print_summary.
  repeat print_step.
  eapply triple_bind; [|intros ?; apply triple_print].
  destruct (truthy price_val); [apply triple_print|].
  apply (triple_ret tt (fun _ c w => I (stdin c) w)).
Qed.

Variable self : BinanceFuturesClient.t.

(** [place_order] sends nothing, or the one POST call of the order *)
Lemma place_order_world (symbol side order_type : string) (quantity : float)
      (price : option float) (w : world) :
  snd (place_order self symbol side order_type quantity price w) = w
  \/ exists data,
      snd (place_order self symbol side order_type quantity price w)
      = Spec.after_call w (Spec.call_of self "POST" "/api/v3/order" data).
Proof.
  destruct (Spec.violated side order_type quantity price) as [|m l] eqn:Hv.
  - right. rewrite (place_order_valid _ _ _ _ _ _ _ Hv).
    rewrite send_request_world. cbn [String.eqb Ascii.eqb Bool.eqb orb].
    eexists. reflexivity.
  - left. rewrite place_order_invalid by (rewrite Hv; discriminate).
    reflexivity.
Qed.

(** the ping of a flow *)
Lemma triple_ping (I : list string -> world -> Prop) (w : world)
      (E : raised -> console -> world -> Prop) :
  triple (fun c w0 => w0 = w /\ I (stdin c) w)
         (run (test_connection self))
         (fun b c w0 =>
            w0 = Spec.after_call w (Spec.call_of self "GET" "/api/v3/ping" [])
            /\ I (stdin c) w
            /\ test_connection self w = (inr b, w0))
         E.
Proof.
  intros c w0 [-> H]. unfold run.
  destruct (test_connection_result self w) as [b [Hb _]].
  rewrite Hb. auto.
Qed.

(** X12. The interactive flow issues the ping and then at most one call,
    the POST of the order; and the order goes out only if one of the lines
    typed reads [yes] once stripped and put in lower case. Without such a
    line the ping is the only call. *)
Theorem interactive_order_needs_yes (c : console) (w : world) :
  let w1 := Spec.after_call w (Spec.call_of self "GET" "/api/v3/ping" []) in
  let w' := snd (place_order_interactive self c w) in
  w' = w1
  \/ ((exists data,
          w' = Spec.after_call w1 (Spec.call_of self "POST" "/api/v3/order" data))
      /\ exists line, In line (stdin c) /\ Str.lower (Str.strip line) = "yes").
Proof.
  cbv zeta.
  set (w1 := Spec.after_call w (Spec.call_of self "GET" "/api/v3/ping" [])).
  set (lines := stdin c).
  pose (Fin := fun w0 : world =>
          w0 = w1
          \/ ((exists data,
                  w0 = Spec.after_call w1
                         (Spec.call_of self "POST" "/api/v3/order" data))
              /\ exists line, In line lines /\ Str.lower (Str.strip line) = "yes")).
  pose (I0 := fun (l : list string) (w0 : world) => w0 = w /\ incl l lines).
  pose (I1 := fun (l : list string) (w0 : world) => w0 = w1 /\ incl l lines).
  pose (IF := fun (_ : list string) (w0 : world) => Fin w0).
  assert (S1 : steady I1).
  { intros x l w0 [H1 H2]. split; [exact H1|].
    intros y Hy. apply H2. now right. }
  assert (E1 : forall (r : raised) c0 w0, I1 (stdin c0) w0 -> IF (stdin c0) w0).
  { intros _ c0 w0 [H _]. left. exact H. }
  assert (E0 : forall (msg : string) c0 w0, I1 (stdin c0) w0 -> IF (stdin c0) w0).
  { intros msg. apply E1. exact (EOFError msg). }
  assert (T : triple (fun c0 w0 => I0 (stdin c0) w0) (place_order_interactive self)
                     (fun _ c0 w0 => IF (stdin c0) w0)
                     (fun _ c0 w0 => IF (stdin c0) w0)).
  { unfold place_order_interactive. repeat print_step.
    eapply triple_try with (E' := fun _ c0 w0 => IF (stdin c0) w0).
    2: { intros r. unfold interactive_handler.
         destruct (is_ValueError r); [apply (triple_print IF)|].
         destruct (is_Exception r); [apply (triple_print IF)|].
         apply (triple_raise r (fun _ c0 w0 => IF (stdin c0) w0)
                             (fun _ c0 w0 => IF (stdin c0) w0)). }
    print_step.
    eapply triple_bind.
    { eapply triple_weaken;
        [apply (triple_ping (fun l _ => incl l lines) w
                  (fun _ c0 w0 => IF (stdin c0) w0))|..].
      - intros c0 w0 [H1 H2]. split; [exact H1|exact H2].
      - intros b c0 w0 H. exact H.
      - auto. }
    intros connected. cbv beta.
    assert (P1 : forall c0 w0,
               w0 = w1 /\ incl (stdin c0) lines
               /\ test_connection self w = (inr connected, w0) ->
               I1 (stdin c0) w0).
    { intros c0 w0 [H1 [H2 _]]. split; assumption. }
    destruct connected; cbn [negb].
    - eapply triple_weaken with (P := fun c0 w0 => I1 (stdin c0) w0);
        [|exact P1|intros ? c0 w0 H; exact H|intros r c0 w0 H; exact H].
      print_step.
      eapply triple_bind; [apply (triple_input I1 _ _ S1 E0)|intros symbol; cbv beta zeta].
      eapply triple_bind; [apply (triple_input I1 _ _ S1 E0)|intros side; cbv beta zeta].
      eapply triple_bind; [apply (triple_input I1 _ _ S1 E0)|intros order_type; cbv beta zeta].
      eapply triple_bind; [apply (triple_input I1 _ _ S1 E0)|intros quantity; cbv beta zeta].
      eapply triple_bind with (Q := fun _ c0 w0 => I1 (stdin c0) w0).
      { destruct (String.eqb (Str.upper (Str.strip order_type)) "LIMIT").
        - eapply triple_bind; [apply (triple_input I1 _ _ S1 E0)|intros price].
          apply (triple_ret (Some (Str.strip price))
                            (fun _ c0 w0 => I1 (stdin c0) w0)).
        - apply (triple_ret None (fun _ c0 w0 => I1 (stdin c0) w0)). }
      intros price. cbv beta.
      eapply triple_bind; [apply (triple_lift I1 _ (fun _ c0 w0 => IF (stdin c0) w0)); intros e c0 w0 _; apply E1; exact (Py e)|].
      intros [[[[symbol' side'] order_type'] qty] price_val]. cbv beta iota.
      eapply triple_weaken with (P := fun c0 w0 => I1 (stdin c0) w0);
        [|intros c0 w0 [H _]; exact H|intros ? c0 w0 H; exact H
         |intros r c0 w0 H; exact H].
      eapply triple_bind; [apply (triple_summary I1)|intros ?; cbv beta].
      eapply triple_bind; [apply (triple_input_keep I1 _ _ E0)|intros confirm].
      cbv beta zeta.
      destruct (String.eqb (Str.lower (Str.strip confirm)) "yes") eqn:Hyes;
        cbn [negb].
      + apply String.eqb_eq in Hyes.
        apply (triple_pure (In confirm lines)).
        { intros c0 w0 [_ H]. apply H. now left. }
        intros Hin.
        pose (I2 := fun (_ : list string) (w2 : world) =>
                w2 = w1
                \/ exists data,
                    w2 = Spec.after_call w1
                           (Spec.call_of self "POST" "/api/v3/order" data)).
        pose (I3 := fun (_ : list string) (w2 : world) => w2 = w1).
        eapply triple_weaken
          with (P := fun c0 w0 => I3 (stdin c0) w0)
               (Q := fun _ c0 w0 => I2 (stdin c0) w0)
               (E := fun _ c0 w0 => I2 (stdin c0) w0).
        * unfold place_and_show. print_step.
          eapply triple_bind.
          { apply (triple_run I3 _ (fun _ => I2) (fun _ => I2)).
            intros l w0 ->.
            pose proof (place_order_world symbol' side' order_type' qty price_val w1)
              as Hw.
            destruct (place_order self symbol' side' order_type' qty price_val w1)
              as [[e|d] w2]; exact Hw. }
          intros response. cbv beta.
          eapply triple_bind;
            [apply (triple_lift I2 _ (fun _ c0 w0 => I2 (stdin c0) w0)); auto|].
          intros shown. cbv beta.
          intros c0 w0 [H _]. exact H.
        * intros c0 w0 [H _]. exact H.
        * intros ? c0 w0 [H|H]; [left; exact H|right].
          split; [exact H|]. exists confirm. split; assumption.
        * intros ? c0 w0 [H|H]; [left; exact H|right].
          split; [exact H|]. exists confirm. split; assumption.
      + eapply triple_weaken;
          [apply (triple_print I1 _ (fun _ c0 w0 => IF (stdin c0) w0))|..].
        * intros c0 w0 H. apply (S1 confirm). exact H.
        * intros ? c0 w0 H. apply (E1 (EOFError "") c0 w0 H).
        * intros r c0 w0 H. exact H.
    - eapply triple_weaken;
        [apply (triple_print I1 _ (fun _ c0 w0 => IF (stdin c0) w0))|exact P1|..].
      + intros ? c0 w0 H. apply (E1 (EOFError "") c0 w0 H).
      + intros r c0 w0 H. exact H. }
  specialize (T c w (conj eq_refl (incl_refl _))).
  destruct (place_order_interactive self c w) as [[[r|a] c'] w']; exact T.
Qed.

Lemma tame_after_call (w : world) (rq : http_request) :
  tame w -> tame (Spec.after_call w rq).
Proof. intros H. exact H. Qed.

Lemma not_exit_is_exception (e : exn) :
  exn_class e <> SystemExit -> isinstance (exn_class e) Exception = true.
Proof. destruct e as [[] m]; simpl; congruence. Qed.

Lemma send_handler_class {A} (e0 e : exn) (w : world) :
  exn_class e0 <> SystemExit ->
  fst (@send_handler _ A e0 w) = inl e ->
  exn_class e <> SystemExit.
Proof.
  intros H0. unfold send_handler.
  destruct (isinstance (exn_class e0) RequestException);
    [intros H; injection H as <-; discriminate|].
  destruct (isinstance (exn_class e0) ValueError);
    [intros H; injection H as <-; discriminate|].
  intros H. injection H as <-. exact H0.
Qed.

(** in a tame world no call of [_send_request] ends the process *)
Lemma send_request_tame (method endpoint : string) (params : option pydict)
      (signed : bool) (w : world) (e : exn) :
  tame w ->
  fst (_send_request self method endpoint params signed w) = inl e ->
  exn_class e <> SystemExit.
Proof.
  intros [Hn Hj].
  assert (R : forall (g : http_response -> M http_response) rq w0,
             (forall resp e0 w1, fst (g resp w1) = inl e0 -> exn_class e0 <> SystemExit) ->
             (forall resp resp' w1, fst (g resp w1) = inr resp' -> resp' = resp) ->
             fst (try_except
                    (response <- (response <- lift (network w rq) ;; g response) ;;
                     Requests.raise_for_status response ;;;
                     data <- Requests.response_json response ;;
                     ret data)
                    send_handler w0) = inl e ->
             exn_class e <> SystemExit).
  { intros g rq w0 Hg1 Hg2. unfold try_except, bind at 1, bind at 1, lift.
    destruct (network w rq) as [e0|resp] eqn:Hnet.
    - apply send_handler_class. exact (Hn _ _ Hnet).
    - pose proof (Hg1 resp) as G1. pose proof (Hg2 resp) as G2.
      destruct (g resp w0) as [[e0|resp'] w1] eqn:Hg.
      + apply send_handler_class. apply (G1 e0 w0). now rewrite Hg.
      + assert (resp' = resp) by (apply (G2 resp' w0); now rewrite Hg).
        subst resp'.
        unfold bind.
        destruct (Z_lt_dec (status_code resp) 400) as [Hlo|Hlo];
          [|destruct (Z_le_dec 600 (status_code resp)) as [Hhi|Hhi]].
        1,2: rewrite raise_for_status_pass by lia;
          unfold Requests.response_json;
          destruct (json resp) as [e0|d] eqn:Hjs;
          [apply send_handler_class; exact (Hj _ _ _ Hnet Hjs)|discriminate].
        rewrite raise_for_status_error by lia.
        apply send_handler_class. discriminate. }
  destruct (String.eqb method "GET") eqn:Eg.
  - apply String.eqb_eq in Eg. subst method.
    rewrite send_request_get. cbv zeta.
    set (rq := Spec.call_of self "GET" endpoint _).
    intros H. apply (R (fun resp => ret resp) rq (Spec.after_call w rq)).
    + intros resp e0 w1 H0. discriminate H0.
    + intros resp resp' w1 H0. now injection H0.
    + revert H. unfold try_except, bind, lift, ret.
      destruct (network w rq) as [e0|resp]; exact (fun H => H).
  - destruct (String.eqb method "POST") eqn:Ep.
    + apply String.eqb_eq in Ep. subst method.
      rewrite send_request_post. cbv zeta.
      apply (R (fun response =>
                  match history response with
                  | [] => ret response
                  | _ :: _ =>
                      raise (Exn Exception
                               ("Request redirected! Wrong URL or endpoint. Final URL: "
                                ++ response_url response))
                  end)).
      * intros resp e0 w1. destruct (history resp); [discriminate|].
        intros H0. injection H0 as <-. discriminate.
      * intros resp resp' w1. destruct (history resp); [|discriminate].
        intros H0. now injection H0.
    + apply String.eqb_neq in Eg, Ep. rewrite send_request_other by assumption.
      intros H. injection H as <-. discriminate.
Qed.

(** in a tame world no call of [place_order] ends the process, and the
    world stays tame *)
Lemma place_order_tame (symbol side order_type : string) (quantity : float)
      (price : option float) (w : world) :
  tame w ->
  match place_order self symbol side order_type quantity price w with
  | (inl e, w') => exn_class e <> SystemExit /\ tame w'
  | (inr _, w') => tame w'
  end.
Proof.
  intros Ht.
  pose proof (place_order_world symbol side order_type quantity price w) as Hw.
  assert (Hc : forall e,
             fst (place_order self symbol side order_type quantity price w) = inl e ->
             exn_class e <> SystemExit).
  { intros e.
    destruct (Spec.violated side order_type quantity price) as [|m l] eqn:Hv.
    - rewrite (place_order_valid _ _ _ _ _ _ _ Hv).
      now apply send_request_tame.
    - rewrite place_order_invalid by (rewrite Hv; discriminate).
      intros H. injection H as <-. discriminate. }
  destruct (place_order self symbol side order_type quantity price w)
    as [[e|d] w'].
  - split; [now apply Hc|].
    cbn [snd] in Hw. destruct Hw as [->|[data ->]]; exact Ht.
  - cbn [snd] in Hw. destruct Hw as [->|[data ->]]; exact Ht.
Qed.

Lemma validate_inputs_class (symbol side order_type quantity : string)
      (price : option string) (e : exn) :
  OrderCLI.validate_inputs symbol side order_type quantity price = inl e ->
  exn_class e <> SystemExit.
Proof.
  unfold OrderCLI.validate_inputs.
  destruct (OrderCLI.collect_errors _ _ _ _ _) as [[errors qty] price_val].
  destruct errors; [destruct qty|]; intros H; try discriminate;
    injection H as <-; discriminate.
Qed.

Lemma format_class (response : pydict) (e : exn) :
  OrderCLI.format_order_response response = inl e ->
  exn_class e <> SystemExit.
Proof.
  unfold OrderCLI.format_order_response.
  destruct (match dict_get response "code" with
            | Some c => OrderCLI.ne_int c 200
            | None => false
            end); [discriminate|].
  destruct (dict_get response "avgPrice") as [a|]; [|discriminate].
  unfold OrderCLI.py_float.
  destruct a as [s|n|x].
  - destruct (float_of_string s) as [m|x];
      [intros H; injection H as <-; discriminate|].
    destruct (float_gt_zero x); discriminate.
  - destruct (float_of_int n) as [m|x];
      [intros H; injection H as <-; discriminate|].
    destruct (float_gt_zero x); discriminate.
  - destruct (float_gt_zero x); discriminate.
Qed.

(** the order is placed and shown: in a tame world what this raises is an
    [Exception] *)
Lemma place_and_show_tame (symbol side order_type : string) (qty : float)
      (price_val : option float) :
  triple (fun _ w => tame w)
         (place_and_show self symbol side order_type qty price_val)
         (fun _ _ w => tame w)
         (fun r _ w => is_Exception r = true /\ tame w).
Proof.
  pose (IT := fun (_ : list string) (w : world) => tame w).
  change (triple (fun c w => IT (stdin c) w)
                 (place_and_show self symbol side order_type qty price_val)
                 (fun _ c w => IT (stdin c) w)
                 (fun r c w => is_Exception r = true /\ IT (stdin c) w)).
  unfold place_and_show. print_step.
  eapply triple_bind.
  { apply (triple_run IT _ (fun _ => IT)
                      (fun r l w => is_Exception r = true /\ IT l w)).
    intros l w Ht.
    pose proof (place_order_tame symbol side order_type qty price_val w Ht) as H.
    destruct (place_order self symbol side order_type qty price_val w)
      as [[e|d] w']; [|exact H].
    destruct H as [Hc Hw]. split; [|exact Hw].
    now apply not_exit_is_exception. }
  intros response. cbv beta.
  eapply triple_bind.
  { apply (triple_lift IT).
    intros e c w He Hw. split; [|exact Hw].
    apply not_exit_is_exception. now apply (format_class response). }
  intros shown. cbv beta. intros c w [H _]. exact H.
Qed.

(** X13. In a world whose network and whose decoding of bodies raise
    nothing that ends the process, the interactive flow never raises:
    whatever is typed, whatever the server answers, and also when the lines
    to read run out, it returns after printing. *)
Theorem interactive_never_raises (c : console) (w : world) :
  tame w ->
  exists c' w', place_order_interactive self c w = (inr tt, c', w').
Proof.
  intros Ht.
  pose (IT := fun (_ : list string) (w0 : world) => tame w0).
  pose (EX := fun (r : raised) (_ : console) (_ : world) => is_Exception r = true).
  assert (ST : steady IT) by (intros x l w0 H; exact H).
  assert (E0 : forall (msg : string) c0 w0, IT (stdin c0) w0 -> EX (EOFError msg) c0 w0)
    by reflexivity.
  assert (T : triple (fun c0 w0 => IT (stdin c0) w0) (place_order_interactive self)
                     (fun _ _ _ => True) (fun _ _ _ => False)).
  { unfold place_order_interactive. repeat print_step.
    eapply triple_try with (E' := EX).
    2: { intros r. apply (triple_pure (is_Exception r = true)); [auto|].
         intros Hr. unfold interactive_handler. rewrite Hr.
         destruct (is_ValueError r); intros c0 w0 _; exact I. }
    print_step.
    eapply triple_bind.
    { apply (triple_run IT _ (fun _ => IT) (fun r _ _ => is_Exception r = true)).
      intros l w0 H0.
      destruct (test_connection_result self w0) as [b [Hb _]].
      rewrite Hb. exact H0. }
    intros connected. cbv beta.
    destruct connected; cbn [negb]; [|intros c0 w0 _; exact I].
    print_step.
    eapply triple_bind; [apply (triple_input IT _ _ ST E0)|intros symbol; cbv beta zeta].
    eapply triple_bind; [apply (triple_input IT _ _ ST E0)|intros side; cbv beta zeta].
    eapply triple_bind;
      [apply (triple_input IT _ _ ST E0)|intros order_type; cbv beta zeta].
    eapply triple_bind;
      [apply (triple_input IT _ _ ST E0)|intros quantity; cbv beta zeta].
    eapply triple_bind with (Q := fun _ c0 w0 => IT (stdin c0) w0).
    { destruct (String.eqb (Str.upper (Str.strip order_type)) "LIMIT").
      - eapply triple_bind; [apply (triple_input IT _ _ ST E0)|intros price].
        apply (triple_ret (Some (Str.strip price)) (fun _ c0 w0 => IT (stdin c0) w0)).
      - apply (triple_ret None (fun _ c0 w0 => IT (stdin c0) w0)). }
    intros price. cbv beta.
    eapply triple_bind.
    { apply (triple_lift IT _ EX). intros e c0 w0 He _.
      apply not_exit_is_exception. now apply validate_inputs_class in He. }
    intros [[[[symbol' side'] order_type'] qty] price_val]. cbv beta iota.
    eapply triple_weaken with (P := fun c0 w0 => IT (stdin c0) w0);
      [|intros c0 w0 [H _]; exact H|intros ? c0 w0 H; exact H
       |intros r c0 w0 H; exact H].
    eapply triple_bind; [apply (triple_summary IT)|intros ?; cbv beta].
    eapply triple_bind; [apply (triple_input IT _ _ ST E0)|intros confirm].
    cbv beta zeta.
    destruct (String.eqb (Str.lower (Str.strip confirm)) "yes"); cbn [negb];
      [|intros c0 w0 _; exact I].
    eapply triple_weaken;
      [apply (place_and_show_tame symbol' side' order_type' qty price_val)|..].
    - intros c0 w0 H. exact H.
    - intros ? c0 w0 _. exact I.
    - intros r c0 w0 [H _]. exact H. }
  specialize (T c w Ht).
  destruct (place_order_interactive self c w) as [[[r|[]] c'] w'];
    [contradiction|eauto].
Qed.

(** [place_order] returns only after the call of the order *)
Lemma place_order_returns (symbol side order_type : string) (quantity : float)
      (price : option float) (w : world) (d : pydict) :
  fst (place_order self symbol side order_type quantity price w) = inr d ->
  exists data,
    snd (place_order self symbol side order_type quantity price w)
    = Spec.after_call w (Spec.call_of self "POST" "/api/v3/order" data).
Proof.
  destruct (Spec.violated side order_type quantity price) as [|m l] eqn:Hv.
  - intros _. rewrite (place_order_valid _ _ _ _ _ _ _ Hv).
    rewrite send_request_world. cbn [String.eqb Ascii.eqb Bool.eqb orb].
    eexists. reflexivity.
  - rewrite place_order_invalid by (rewrite Hv; discriminate). discriminate.
Qed.

Variable decimal_of_float : float -> Dec.decimal.

Lemma validate_args_class (symbol side order_type : string) (quantity : float)
      (price : option float) (e : exn) :
  Flows.validate_inputs decimal_of_float symbol side order_type quantity price = inl e ->
  exn_class e <> SystemExit.
Proof.
  unfold Flows.validate_inputs.
  destruct (check_quantity _ _ _) as [e4 qty].
  destruct (check_price _ _ _ _) as [e5 price_val].
  destruct e5; [discriminate|]. intros H. injection H as <-. discriminate.
Qed.

(** X17. The validation reports every violation for the parsed arguments
    as well, where the quantity and the price are floats: it returns when
    no constraint is violated, and otherwise raises one [ValueError] whose
    message joins one message for each violated constraint, in their order.
    A price of zero counts as no price. *)
Theorem args_validation_reports_every_violation
        (symbol side order_type : string) (quantity : float) (price : option float) :
  let positive := fun x : float =>
    match Dec.le_zero (decimal_of_float x) with
    | Some false => true
    | _ => false
    end in
  let violated :=
    (Spec.report Spec.CSymbol (Nat.leb 6 (String.length symbol))
     ++ Spec.report Spec.CSide (Str.mem (Str.upper side) ["BUY"; "SELL"])
     ++ Spec.report Spec.COrderType
          (Str.mem (Str.upper order_type) ["MARKET"; "LIMIT"])
     ++ Spec.report Spec.CQuantity (positive quantity)
     ++ Spec.report Spec.CPrice
          (if String.eqb (Str.upper order_type) "LIMIT" then
             match price with
             | Some p => negb (float_eq_int p 0) && positive p
             | None => false
             end
           else true))%list in
  match Flows.validate_inputs decimal_of_float symbol side order_type quantity price with
  | inr _ => violated = []
  | inl e =>
      exists errors,
        e = Exn ValueError (String.concat Str.nl errors)
        /\ map Spec.about errors = violated
        /\ violated <> []
        /\ Forall (fun m => Str.contains (exn_msg e) m = true) errors
  end.
Proof.
  cbv zeta.
  unfold Flows.validate_inputs, check_quantity, check_price, falsy, truthy,
    OrderCLI.check_symbol, OrderCLI.check_side, OrderCLI.check_order_type.
  rewrite symbol_check.
  destruct (Nat.leb 6 (String.length symbol));
    destruct (Str.mem (Str.upper side) ["BUY"; "SELL"]);
    destruct (Str.mem (Str.upper order_type) ["MARKET"; "LIMIT"]);
    destruct (Dec.le_zero (decimal_of_float quantity)) as [[|]|];
    destruct (String.eqb (Str.upper order_type) "LIMIT");
    try (destruct price as [p|];
         [destruct (float_eq_int p 0);
          [|destruct (Dec.le_zero (decimal_of_float p)) as [[|]|]]|]);
    cbn [negb andb list_append app Spec.report];
    try reflexivity;
    (eexists; split; [reflexivity|]; split; [reflexivity|];
     split; [discriminate|];
     apply Forall_forall; intros m Hm; now apply contains_concat).
Qed.

(** X14. In a world whose network and whose decoding of bodies raise
    nothing that ends the process, the flow of the arguments either returns
    or ends the process with status 1: every failure, of the connection, of
    the validation, of the order or of the formatting, becomes this exit. *)
Theorem args_flow_exits_with_1 (a : args) (c : console) (w : world) :
  tame w ->
  exists c' w',
    run_from_args decimal_of_float self a c w = (inr tt, c', w')
    \/ run_from_args decimal_of_float self a c w
       = (inl (Py (Exn SystemExit "1")), c', w').
Proof.
  intros Ht.
  pose (IT := fun (_ : list string) (w0 : world) => tame w0).
  pose (EX := fun (r : raised) (_ : console) (_ : world) =>
                is_Exception r = true \/ r = Py (Exn SystemExit "1")).
  assert (T : triple (fun c0 w0 => IT (stdin c0) w0)
                     (run_from_args decimal_of_float self a)
                     (fun _ _ _ => True)
                     (fun r _ _ => r = Py (Exn SystemExit "1"))).
  { unfold run_from_args.
    eapply triple_try with (E' := EX).
    2: { intros r. apply (triple_pure (EX r c w)); [intros c0 w0 H; exact H|].
         intros [Hr|Hr].
         - rewrite Hr. intros c0 w0 _. reflexivity.
         - subst r. intros c0 w0 _. reflexivity. }
    eapply triple_bind.
    { apply (triple_run IT _ (fun _ => IT) (fun r _ _ => EX r c w)).
      intros l w0 H0.
      destruct (test_connection_result self w0) as [b [Hb _]].
      rewrite Hb. exact H0. }
    intros connected. cbv beta.
    eapply triple_bind with (Q := fun _ c0 w0 => IT (stdin c0) w0).
    { destruct connected; cbn [negb].
      - apply (triple_ret tt (fun _ c0 w0 => IT (stdin c0) w0)).
      - print_step. intros c0 w0 _. right. reflexivity. }
    intros ?. cbv beta.
    eapply triple_bind.
    { apply (triple_lift IT _ EX). intros e c0 w0 He _. left.
      apply not_exit_is_exception. now apply validate_args_class in He. }
    intros [[[[symbol' side'] order_type'] qty] price_val]. cbv beta iota.
    eapply triple_weaken with (P := fun c0 w0 => IT (stdin c0) w0);
      [|intros c0 w0 [H _]; exact H|intros ? c0 w0 H; exact H
       |intros r c0 w0 H; exact H].
    eapply triple_bind; [apply (triple_summary IT)|intros ?; cbv beta].
    eapply triple_weaken;
      [apply (place_and_show_tame symbol' side' order_type' qty price_val)|..].
    - intros c0 w0 H. exact H.
    - intros ? c0 w0 _. exact I.
    - intros r c0 w0 [H _]. left. exact H. }
  specialize (T c w Ht).
  destruct (run_from_args decimal_of_float self a c w) as [[[r|[]] c'] w'].
  - subst r. exists c', w'. now right.
  - exists c', w'. now left.
Qed.

(** X15. The flow of the arguments returns only after the order has gone
    out: when it returns, the ping was answered well and the calls issued
    are the ping and the POST of the order. *)
Theorem args_flow_returns_after_order (a : args) (c : console) (w : world) :
  let w1 := Spec.after_call w (Spec.call_of self "GET" "/api/v3/ping" []) in
  fst (fst (run_from_args decimal_of_float self a c w)) = inr tt ->
  test_connection self w = (inr true, w1)
  /\ exists data,
      snd (run_from_args decimal_of_float self a c w)
      = Spec.after_call w1 (Spec.call_of self "POST" "/api/v3/order" data).
Proof.
  cbv zeta.
  set (w1 := Spec.after_call w (Spec.call_of self "GET" "/api/v3/ping" [])).
  pose (Done := fun w0 : world =>
          test_connection self w = (inr true, w1)
          /\ exists data,
              w0 = Spec.after_call w1 (Spec.call_of self "POST" "/api/v3/order" data)).
  pose (I0 := fun (_ : list string) (w0 : world) => w0 = w).
  pose (I1 := fun (_ : list string) (w0 : world) =>
                w0 = w1 /\ test_connection self w = (inr true, w1)).
  assert (T : triple (fun c0 w0 => I0 (stdin c0) w0)
                     (run_from_args decimal_of_float self a)
                     (fun _ _ w0 => Done w0) (fun _ _ _ => True)).
  { unfold run_from_args.
    eapply triple_try with (E' := fun _ _ _ => True).
    2: { intros r. destruct (is_Exception r); intros c0 w0 _; exact I. }
    eapply triple_bind.
    { eapply triple_weaken;
        [apply (triple_ping (fun _ _ => True) w (fun _ _ _ => True))|..].
      - intros c0 w0 H. split; [exact H|exact I].
      - intros b c0 w0 H. exact H.
      - auto. }
    intros connected. cbv beta.
    eapply triple_bind with (Q := fun _ c0 w0 => I1 (stdin c0) w0).
    { destruct connected; cbn [negb].
      - intros c0 w0 [H1 [_ H2]]. split; [exact H1|]. now rewrite H2, H1.
      - intros c0 w0 _. exact I. }
    intros ?. cbv beta.
    eapply triple_bind; [apply (triple_lift I1); auto|].
    intros [[[[symbol' side'] order_type'] qty] price_val]. cbv beta iota.
    eapply triple_weaken with (P := fun c0 w0 => I1 (stdin c0) w0);
      [|intros c0 w0 [H _]; exact H|intros ? c0 w0 H; exact H
       |intros r c0 w0 H; exact H].
    eapply triple_bind; [apply (triple_summary I1)|intros ?; cbv beta].
    unfold place_and_show. print_step.
    eapply triple_bind.
    { apply (triple_run I1 _ (fun _ (_ : list string) w0 => Done w0)
                        (fun _ _ _ => True)).
      intros l w0 [-> Hc].
      pose proof (place_order_returns symbol' side' order_type' qty price_val w1)
        as Hr.
      destruct (place_order self symbol' side' order_type' qty price_val w1)
        as [[e|d] w2]; [exact I|].
      split; [exact Hc|]. exact (Hr d eq_refl). }
    intros response. cbv beta.
    pose (ID := fun (_ : list string) (w0 : world) => Done w0).
    eapply triple_bind; [apply (triple_lift ID); auto|].
    intros shown. cbv beta. intros c0 w0 [H _]. exact H. }
  specialize (T c w eq_refl).
  destruct (run_from_args decimal_of_float self a c w) as [[[r|[]] c'] w'];
    [discriminate|].
  intros _. exact T.
Qed.

(** X16. When the ping fails, both flows stop at once, without reading a
    line and without a second call: the interactive flow returns after its
    banner and one line about the connection, the flow of the arguments
    prints one line and ends the process with status 1. *)
Theorem flows_stop_when_ping_fails (a : args) (c : console) (w : world) :
  let w1 := Spec.after_call w (Spec.call_of self "GET" "/api/v3/ping" []) in
  fst (test_connection self w) = inr false ->
  place_order_interactive self c w
  = (inr tt,
     {| stdin := stdin c;
        stdout :=
          List.app (stdout c)
              [(Str.nl ++ Str.repeat "=" 50) ++ Str.nl;
               "BINANCE FUTURES TESTNET ORDER PLACER" ++ Str.nl;
               Str.repeat "=" 50 ++ Str.nl;
               "🔍 Testing API connection..." ++ Str.nl;
               "❌ Cannot connect to Binance API. Check credentials and network."
               ++ Str.nl] |},
     w1)
  /\ run_from_args decimal_of_float self a c w
     = (inl (Py (Exn SystemExit "1")),
        {| stdin := stdin c;
           stdout := List.app (stdout c) ["❌ Cannot connect to Binance API" ++ Str.nl] |},
        w1).
Proof.
  cbv zeta. intros Hf.
  destruct (test_connection_result self w) as [b [Hb _]].
  rewrite Hb in Hf. injection Hf as ->.
  split.
  - unfold place_order_interactive, io_try, io_bind, print, run.
    cbn [stdin stdout]. rewrite Hb. cbn [negb stdin stdout].
    unfold list_append. rewrite <- !app_assoc. reflexivity.
  - unfold run_from_args, io_try, io_bind, run. rewrite Hb.
    cbn [negb]. unfold print, sys_exit_1, io_raise. cbn [is_Exception isinstance
      exn_class pyclass_eqb negb]. reflexivity.
Qed.

End FlowRules.

(** * Concrete runs of the further properties *)

Lemma unsupported_method_run :
  "PUT" <> "GET"
  /\ "PUT" <> "POST"
  /\ _send_request Sample.client "PUT" "/api/v3/order" None true
                   (Sample.world_of 1700000000000 (inr Sample.accepted))
     = (inl (Exn Exception
                 "Invalid response from server: Unsupported HTTP method: PUT"),
        Sample.world_of 1700000000000 (inr Sample.accepted)).
Proof.
  split; [discriminate|]. split; [discriminate|].
  apply (unsupported_method_is_reported_as_bad_response (L := Sample.lib));
    discriminate.
Defined.

Lemma send_request_hides_library_errors_run :
  fst (_send_request Sample.client "GET" "/api/v3/account" None true
                     (Sample.world_of 1700000000000
                                      (inl (Exn RequestException "Read timed out."))))
  = inl (Exn Exception "Network error: Read timed out.")
  /\ exn_class (Exn Exception "Network error: Read timed out.") <> RequestException
  /\ exn_class (Exn Exception "Network error: Read timed out.") <> ValueError.
Proof.
  split; [reflexivity|].
  apply (send_request_hides_library_errors (L := Sample.lib) Sample.client
           "GET" "/api/v3/account" None true
           (Sample.world_of 1700000000000
                            (inl (Exn RequestException "Read timed out.")))).
  reflexivity.
Defined.

Lemma undecodable_body_run :
  (status_code Sample.garbled < 400 \/ 600 <= status_code Sample.garbled)
  /\ json Sample.garbled = inl (Exn ValueError "Expecting value")
  /\ _send_request Sample.client "GET" "/api/v3/ping" None false
                   (Sample.world_of 1700000000000 (inr Sample.garbled))
     = (inl (Exn Exception "Invalid response from server: Expecting value"),
        Spec.after_call
          (Sample.world_of 1700000000000 (inr Sample.garbled))
          (Spec.call_of Sample.client "GET" "/api/v3/ping" [])).
Proof.
  split; [left; simpl; lia|]. split; [reflexivity|].
  apply (proj1 (undecodable_body_is_reported (L := Sample.lib) Sample.client
                  "GET" "/api/v3/ping" None false
                  (Sample.world_of 1700000000000 (inr Sample.garbled))
                  Sample.garbled (Exn ValueError "Expecting value")
                  (or_introl eq_refl)
                  (or_introl (eq_refl : (200 ?= 400) = Lt))
                  eq_refl eq_refl)).
  reflexivity.
Defined.

Lemma place_order_value_error_run :
  fst (place_order Sample.client "BTCUSDT" "BUY" "LIMIT" (Sample.num false 1 0) None
                   (Sample.world_of 1700000000000 (inr Sample.accepted)))
  = inl (Exn ValueError "Price is required for LIMIT orders")
  /\ snd (place_order Sample.client "BTCUSDT" "BUY" "LIMIT" (Sample.num false 1 0) None
                      (Sample.world_of 1700000000000 (inr Sample.accepted)))
     = Sample.world_of 1700000000000 (inr Sample.accepted)
  /\ In "Price is required for LIMIT orders"
        (Spec.violated (L := Sample.lib) "BUY" "LIMIT" (Sample.num false 1 0) None).
Proof.
  split; [reflexivity|].
  apply (place_order_value_error_means_not_sent (L := Sample.lib) Sample.client
           "BTCUSDT" "BUY" "LIMIT" (Sample.num false 1 0) None
           (Sample.world_of 1700000000000 (inr Sample.accepted))
           (Exn ValueError "Price is required for LIMIT orders"));
    reflexivity.
Defined.

Lemma validation_ignores_price_run :
  Str.upper "market" <> "LIMIT"
  /\ OrderCLI.validate_inputs (L := Sample.lib) "btcusdt" "buy" "market" "0.5"
                              (Some "not a price")
     = OrderCLI.validate_inputs (L := Sample.lib) "btcusdt" "buy" "market" "0.5" None.
Proof.
  split; [discriminate|].
  apply (validation_ignores_price_unless_limit (L := Sample.lib)). discriminate.
Defined.

Lemma validated_order_run :
  OrderCLI.validate_inputs (L := Sample.lib) "ethusdt" "sell" "limit" "2"
                           (Some "1800.5")
  = inr ("ETHUSDT", "SELL", "LIMIT", Sample.num false 2 0,
         Some (Sample.num false 18005 (-1)))
  /\ (6 <= String.length "ETHUSDT")%nat
  /\ Spec.violated (L := Sample.lib) "SELL" "LIMIT" (Sample.num false 2 0)
                   (Some (Sample.num false 18005 (-1)))
     = [].
Proof.
  split; [reflexivity|].
  destruct (validated_order_passes_client_checks (L := Sample.lib)
              "ethusdt" "sell" "limit" "2" (Some "1800.5")
              "ETHUSDT" "SELL" "LIMIT" (Sample.num false 2 0)
              (Some (Sample.num false 18005 (-1))) eq_refl)
    as [_ [Hlen [_ [_ [_ Hv]]]]].
  split; [exact Hlen|exact Hv].
Defined.

Lemma formatting_raises_run :
  OrderCLI.format_order_response (L := Sample.lib)
    [("orderId", VInt 7); ("avgPrice", VStr "n/a")]
  = inl (Exn ValueError "could not convert string to float: 'n/a'")
  /\ exists a,
      dict_get (L := Sample.lib) [("orderId", VInt 7); ("avgPrice", VStr "n/a")]
               "avgPrice" = Some a
      /\ OrderCLI.py_float a
         = inl (Exn ValueError "could not convert string to float: 'n/a'").
Proof.
  split; [reflexivity|].
  destruct (formatting_raises_only_on_average_price (L := Sample.lib)
              [("orderId", VInt 7); ("avgPrice", VStr "n/a")]
              (Exn ValueError "could not convert string to float: 'n/a'") eq_refl)
    as [a [Ha [Hf _]]].
  exists a. split; assumption.
Defined.

Lemma sample_world_tame :
  Flows.tame (Sample.world_of 1700000000000 (inr Sample.accepted)).
Proof.
  split.
  - intros rq e H. discriminate H.
  - intros rq resp e H. injection H as <-. discriminate.
Qed.

Lemma interactive_never_raises_run :
  Flows.tame (Sample.world_of 1700000000000 (inr Sample.accepted))
  /\ exists c' w',
      Flows.place_order_interactive Sample.client
        {| Flows.stdin := ["btcusdt"; "buy"; "market"]; Flows.stdout := [] |}
        (Sample.world_of 1700000000000 (inr Sample.accepted))
      = (inr tt, c', w').
Proof.
  split; [exact sample_world_tame|].
  apply (interactive_never_raises (L := Sample.lib)). exact sample_world_tame.
Defined.

Lemma args_flow_exits_with_1_run :
  Flows.tame (Sample.world_of 1700000000000 (inr Sample.accepted))
  /\ exists c' w',
      Flows.run_from_args (L := Sample.lib) Sample.decimal_of_float Sample.client
        {| Flows.args_symbol := "BTC"; Flows.args_side := "BUY";
           Flows.args_order_type := "LIMIT";
           Flows.args_quantity := Sample.num false 1 0;
           Flows.args_price := None |}
        {| Flows.stdin := []; Flows.stdout := [] |}
        (Sample.world_of 1700000000000 (inr Sample.accepted))
      = (inr tt, c', w')
      \/ Flows.run_from_args (L := Sample.lib) Sample.decimal_of_float Sample.client
           {| Flows.args_symbol := "BTC"; Flows.args_side := "BUY";
              Flows.args_order_type := "LIMIT";
              Flows.args_quantity := Sample.num false 1 0;
              Flows.args_price := None |}
           {| Flows.stdin := []; Flows.stdout := [] |}
           (Sample.world_of 1700000000000 (inr Sample.accepted))
         = (inl (Flows.Py (Exn SystemExit "1")), c', w').
Proof.
  split; [exact sample_world_tame|].
  apply (args_flow_exits_with_1 (L := Sample.lib)). exact sample_world_tame.
Defined.

Lemma args_flow_returns_after_order_run :
  fst (fst (Flows.run_from_args (L := Sample.lib) Sample.decimal_of_float Sample.client
              {| Flows.args_symbol := "btcusdt"; Flows.args_side := "BUY";
                 Flows.args_order_type := "MARKET";
                 Flows.args_quantity := Sample.num false 1 (-3);
                 Flows.args_price := None |}
              {| Flows.stdin := []; Flows.stdout := [] |}
              (Sample.world_of 1700000000000 (inr Sample.accepted))))
  = inr tt
  /\ exists data,
      snd (Flows.run_from_args (L := Sample.lib) Sample.decimal_of_float Sample.client
             {| Flows.args_symbol := "btcusdt"; Flows.args_side := "BUY";
                Flows.args_order_type := "MARKET";
                Flows.args_quantity := Sample.num false 1 (-3);
                Flows.args_price := None |}
             {| Flows.stdin := []; Flows.stdout := [] |}
             (Sample.world_of 1700000000000 (inr Sample.accepted)))
      = Spec.after_call
          (Spec.after_call (Sample.world_of 1700000000000 (inr Sample.accepted))
                           (Spec.call_of Sample.client "GET" "/api/v3/ping" []))
          (Spec.call_of Sample.client "POST" "/api/v3/order" data).
Proof.
  split; [reflexivity|].
  apply (args_flow_returns_after_order (L := Sample.lib)). reflexivity.
Defined.

Lemma flows_stop_when_ping_fails_run :
  fst (test_connection Sample.client
         (Sample.world_of 1700000000000
            (inl (Exn RequestException "Read timed out."))))
  = inr false
  /\ Flows.run_from_args (L := Sample.lib) Sample.decimal_of_float Sample.client
       {| Flows.args_symbol := "btcusdt"; Flows.args_side := "BUY";
          Flows.args_order_type := "MARKET";
          Flows.args_quantity := Sample.num false 1 (-3);
          Flows.args_price := None |}
       {| Flows.stdin := ["yes"]; Flows.stdout := [] |}
       (Sample.world_of 1700000000000 (inl (Exn RequestException "Read timed out.")))
     = (inl (Flows.Py (Exn SystemExit "1")),
        {| Flows.stdin := ["yes"];
           Flows.stdout := ["❌ Cannot connect to Binance API" ++ Str.nl] |},
        Spec.after_call
          (Sample.world_of 1700000000000
             (inl (Exn RequestException "Read timed out.")))
          (Spec.call_of Sample.client "GET" "/api/v3/ping" [])).
Proof.
  split; [reflexivity|].
  destruct (flows_stop_when_ping_fails (L := Sample.lib) Sample.client
              Sample.decimal_of_float
              {| Flows.args_symbol := "btcusdt"; Flows.args_side := "BUY";
                 Flows.args_order_type := "MARKET";
                 Flows.args_quantity := Sample.num false 1 (-3);
                 Flows.args_price := None |}
              {| Flows.stdin := ["yes"]; Flows.stdout := [] |}
              (Sample.world_of 1700000000000
                 (inl (Exn RequestException "Read timed out.")))
              eq_refl) as [_ H].
  exact H.
Defined.
